(** * djblets: API-token policy validation, API errors and token predicates

    A shallow embedding of [djblets/webapi/models.py] (class
    [BaseWebAPIToken]) and [djblets/webapi/errors.py] (class
    [WebAPIError]), followed by the properties proved about them.

    Python objects are embedded as an inductive type of values, dicts as
    association lists in insertion order (iteration order is observable:
    it decides which error is raised first), Python sets as [gset], and
    raising code as functions into a result type. *)

From stdpp Require Import base strings list gmap pretty.

#[local] Set Warnings "-register-all".

(** ** Python values *)

(** Keys that occur in the dicts handled here.  JSON objects only have
    string keys; integer and [None] keys are kept because the validator
    tests [isinstance(subsection_name, str)].  As dict keys [True] and
    [False] are the integers 1 and 0. *)
Inductive pykey : Type :=
  | KStr (s : string)
  | KInt (n : Z)
  | KNone.

#[global] Instance pykey_eq_dec : EqDecision pykey.
Proof. solve_decision. Defined.

Definition pykey_encode (k : pykey) : string + (Z + unit) :=
  match k with
  | KStr s => inl s
  | KInt n => inr (inl n)
  | KNone => inr (inr tt)
  end.

Definition pykey_decode (x : string + (Z + unit)) : pykey :=
  match x with
  | inl s => KStr s
  | inr (inl n) => KInt n
  | inr (inr _) => KNone
  end.

#[global] Instance pykey_countable : Countable pykey.
Proof.
  apply (inj_countable' pykey_encode pykey_decode).
  intros []; reflexivity.
Defined.

(** The values a policy document or a keyword argument can hold.  A float
    is carried as its IEEE-754 binary64 bit pattern, a function object by
    its qualified name. *)
Inductive pyval : Type :=
  | PyNone
  | PyBool (b : bool)
  | PyInt (n : Z)
  | PyFloat (bits : Z)
  | PyStr (s : string)
  | PyList (elems : list pyval)
  | PyDict (entries : list (pykey * pyval))
  | PyFunc (qualname : string).

(** [isinstance(v, dict)], [isinstance(v, list)], [isinstance(k, str)]. *)
Definition isinstance_dict (v : pyval) : bool :=
  match v with PyDict _ => true | _ => false end.

Definition isinstance_list (v : pyval) : bool :=
  match v with PyList _ => true | _ => false end.

Definition isinstance_str (k : pykey) : bool :=
  match k with KStr _ => true | _ => false end.

(** [type(v).__name__] *)
Definition type_name (v : pyval) : string :=
  match v with
  | PyNone => "NoneType"
  | PyBool _ => "bool"
  | PyInt _ => "int"
  | PyFloat _ => "float"
  | PyStr _ => "str"
  | PyList _ => "list"
  | PyDict _ => "dict"
  | PyFunc _ => "function"
  end.

(** [bool(v)]: the truth value used by [not v] and by [a or b]. *)
Definition truthy (v : pyval) : bool :=
  match v with
  | PyNone => false
  | PyBool b => b
  | PyInt n => negb (n =? 0)%Z
  | PyFloat bits => negb (Z.land bits (2 ^ 63 - 1) =? 0)%Z
  | PyStr s => negb (String.eqb s EmptyString)
  | PyList elems => match elems with [] => false | _ => true end
  | PyDict entries => match entries with [] => false | _ => true end
  | PyFunc _ => true
  end.

(** [str(k)], as the [%s] conversion formats a key. *)
Definition str_of_key (k : pykey) : string :=
  match k with
  | KStr s => s
  | KInt n => pretty n
  | KNone => "None"
  end.

(** ** Dicts *)

Abbreviation pydict := (list (pykey * pyval)).

(** [d[k]] and [d.get(k)]: the entry stored under [k]. *)
Fixpoint dict_get (k : pykey) (d : pydict) : option pyval :=
  match d with
  | [] => None
  | (k', v) :: rest => if decide (k = k') then Some v else dict_get k rest
  end.

(** [k in d] *)
Definition dict_contains (k : pykey) (d : pydict) : bool :=
  match dict_get k d with Some _ => true | None => false end.

(** A Python dict holds each key once. *)
Definition dict_wf (d : pydict) : Prop := NoDup d.*1.

(** ** Exceptions and results *)

(** The exceptions that can occur: Django's [ValidationError] and
    [DatabaseError], and Python's own. *)
Inductive exn : Type :=
  | ValidationError (message : string)
  | NotImplementedError
  | AttributeError (message : string)
  | KeyError (key : pykey)
  | DatabaseError.

Inductive result (A : Type) : Type :=
  | Return (a : A)
  | Raise (e : exn).

Arguments Return {A} a.
Arguments Raise {A} e.

(** Sequencing: an exception raised by the first statement skips the
    rest.  The instances give the notations [x ← m; k] and [m;; k]. *)
#[global] Instance result_ret : MRet result := fun A a => Return a.

#[global] Instance result_bind : MBind result := fun A B f m =>
  match m with
  | Return a => f a
  | Raise e => Raise e
  end.

(** A [for] loop whose body may raise: the first exception ends the loop. *)
Fixpoint for_each {A : Type} (body : A → result unit) (l : list A) : result unit :=
  match l with
  | [] => Return tt
  | x :: rest => body x;; for_each body rest
  end.

(** The double-quote character, for messages that quote a name. *)
Definition dq : string := String (Ascii.ascii_of_nat 34) EmptyString.
Definition sq : string := "'".

(** ** Resources *)

(** A node of the API resource tree, with the three attributes the
    validator reads.  [policy_id = None] stands for a resource without
    the attribute ([hasattr(resource, 'policy_id')] is false). *)
Inductive resource : Type :=
  Resource {
    policy_id : option pykey;
    list_child_resources : list resource;
    item_child_resources : list resource
  }.

(** ** BaseWebAPIToken: policy validation *)

Module BaseWebAPIToken.

(** What a concrete token class supplies: the classmethod
    [get_root_resource], which returns the root resource or raises. *)
Record token_class : Type := TokenClass {
  get_root_resource : result resource
}.

(** The base class itself: [get_root_resource] raises
    [NotImplementedError]. *)
Definition base : token_class :=
  {| get_root_resource := Raise NotImplementedError |}.

(** [_validate_policy_section(parent_section, section_name,
    full_section_name)] *)
Definition _validate_policy_section
    (parent_section : pydict) (section_name : pykey)
    (full_section_name : string) : result unit :=
  match dict_get section_name parent_section with
  | None => Raise (KeyError section_name)
  | Some section =>
    match section with
    | PyDict sec =>
      if negb (dict_contains (KStr "allow") sec)
         && negb (dict_contains (KStr "block") sec)
      then Raise (ValidationError
             ("The " +:+ dq +:+ full_section_name +:+ dq
              +:+ " section must have " +:+ dq +:+ "allow" +:+ dq +:+ " and/or "
              +:+ dq +:+ "block" +:+ dq +:+ " rules."))
      else if match dict_get (KStr "allow") sec with
              | Some v => negb (isinstance_list v)
              | None => false
              end
      then Raise (ValidationError
             ("The " +:+ dq +:+ full_section_name +:+ dq +:+ " section's "
              +:+ dq +:+ "allow" +:+ dq +:+ " rule must be a list."))
      else if match dict_get (KStr "block") sec with
              | Some v => negb (isinstance_list v)
              | None => false
              end
      then Raise (ValidationError
             ("The " +:+ dq +:+ full_section_name +:+ dq +:+ " section's "
              +:+ dq +:+ "block" +:+ dq +:+ " rule must be a list."))
      else Return tt
    | _ =>
      Raise (ValidationError
        ("The " +:+ dq +:+ full_section_name +:+ dq
         +:+ " section must be a JSON object."))
    end
  end.

(** [_get_valid_policy_ids(resource, result=None)].  The set [result] is
    one object shared by all recursive calls, which add to it in place;
    here it is threaded through them. *)
Fixpoint _get_valid_policy_ids (resource : resource)
    (result : option (gset pykey)) : gset pykey :=
  let result := match result with Some s => s | None => ∅ end in
  let result :=
    match policy_id resource with
    | Some p => {[ p ]} ∪ result
    | None => result
    end in
  let result :=
    fold_left (fun acc child_resource =>
                 _get_valid_policy_ids child_resource (Some acc))
              (list_child_resources resource) result in
  fold_left (fun acc child_resource =>
               _get_valid_policy_ids child_resource (Some acc))
            (item_child_resources resource) result.

(** The body of the inner loop of [validate_policy]: one
    [(subsection_name, subsection)] item of a resource policy. *)
Definition validate_subsection (policy_id : pykey) (section : pydict)
    (item : pykey * pyval) : result unit :=
  let subsection_name := item.1 in
  if negb (isinstance_str subsection_name)
  then Raise (ValidationError
         (str_of_key subsection_name +:+ " must be a string in " +:+ dq
          +:+ "resources." +:+ str_of_key policy_id +:+ dq))
  else _validate_policy_section section subsection_name
         ("resources." +:+ str_of_key policy_id +:+ "."
          +:+ str_of_key subsection_name).

(** [section.items()]: only a dict has the method. *)
Definition items (section : pyval) : result pydict :=
  match section with
  | PyDict sec => Return sec
  | _ => Raise (AttributeError
           (sq +:+ type_name section +:+ sq +:+ " object has no attribute "
            +:+ sq +:+ "items" +:+ sq))
  end.

(** The body of the outer loop: one [(policy_id, section)] pair of
    [resource_policies]. *)
Definition validate_resource_policy (valid_policy_ids : gset pykey)
    (item : pykey * pyval) : result unit :=
  let '(policy_id, section) := item in
  if negb (bool_decide (policy_id ∈ valid_policy_ids))
  then Raise (ValidationError
         (dq +:+ str_of_key policy_id +:+ dq
          +:+ " is not a valid resource policy ID."))
  else
    sec ← items section;
    for_each (validate_subsection policy_id sec) sec.

(** The list comprehension building [resource_policies]. *)
Definition resource_policies_of (resources_section : pydict) : pydict :=
  filter (fun item => item.1 ≠ KStr "*") resources_section.

(** [validate_policy(cls, policy)] *)
Definition validate_policy (cls : token_class) (policy : pyval) : result unit :=
  match policy with
  | PyDict pol =>
    if negb (truthy policy) then Return tt
    else if negb (dict_contains (KStr "resources") pol)
    then Raise (ValidationError
           ("The policy is missing a " +:+ dq +:+ "resources" +:+ dq
            +:+ " section."))
    else
      match dict_get (KStr "resources") pol with
      | None => Raise (KeyError (KStr "resources"))
      | Some resources_section =>
        match resources_section with
        | PyDict res =>
          if negb (truthy resources_section)
          then Raise (ValidationError
                 ("The policy's " +:+ dq +:+ "resources" +:+ dq
                  +:+ " section must not be empty."))
          else
            (if dict_contains (KStr "*") res
             then _validate_policy_section res (KStr "*") "resources.*"
             else Return tt);;
            let resource_policies := resource_policies_of res in
            if truthy (PyDict resource_policies)
            then
              root ← get_root_resource cls;
              let valid_policy_ids := _get_valid_policy_ids root None in
              for_each (validate_resource_policy valid_policy_ids)
                       resource_policies
            else Return tt
        | _ =>
          Raise (ValidationError
            ("The policy's " +:+ dq +:+ "resources" +:+ dq
             +:+ " section must be a JSON object."))
        end
      end
  | _ => Raise (ValidationError "The policy must be a JSON object.")
  end.

End BaseWebAPIToken.

Import BaseWebAPIToken.

(** ** BaseWebAPIToken: permissions, expiration and saving *)

Module Token.

(** The fields of a token that the methods below read.  The user model is
    Django's: its instances, their [is_superuser] flag and their equality
    ([self.user == user]) are parameters.  A [datetime] is an instant on
    the time line, counted in microseconds. *)
Record token (User : Type) : Type := Token {
  user : User;
  expires : option Z;
  pk : option Z
}.

Arguments Token {User} _ _ _.
Arguments user {User} _.
Arguments expires {User} _.
Arguments pk {User} _.

Section Methods.

Context {User DB : Type}.

(** [user.is_superuser] and [self.user == user] *)
Variable is_superuser : User → bool.
Variable user_eq : User → User → bool.

Definition is_accessible_by (self : token User) (u : User) : bool :=
  is_superuser u || user_eq (user self) u.

Definition is_mutable_by (self : token User) (u : User) : bool :=
  is_superuser u || user_eq (user self) u.

Definition is_deletable_by (self : token User) (u : User) : bool :=
  is_superuser u || user_eq (user self) u.

(** [is_expired(self)]; [now] is the value [timezone.now()] returns. *)
Definition is_expired (now : Z) (self : token User) : bool :=
  match expires self with
  | None => false
  | Some e => bool_decide (e ≤ now)%Z
  end.

(** A signal sent to its receivers, with the instance it is about. *)
Inductive sent_signal : Type :=
  | SignalSent (signal : string) (instance : token User).

(** The state a save acts on: the database, of which nothing is assumed,
    and the signals sent so far, oldest first. *)
Record world : Type := World {
  db : DB;
  sent : list sent_signal
}.

(** [super().save], Django's [Model.save], called with the arguments
    given to [save]: it returns the state and the instance it leaves
    (with its primary key set), or raises. *)
Variable Model_save : world → token User → result (world * token User).

(** [webapi_token_updated.send(instance=self, sender=type(self))] *)
Definition send_webapi_token_updated (w : world) (self : token User)
    : world :=
  {| db := db w;
     sent := sent w ++ [SignalSent "webapi_token_updated" self] |}.

(** [save(self)]; the positional and keyword arguments are only handed
    on to the superclass. *)
Definition save (w : world) (self : token User)
    : result (world * token User) :=
  let is_new := match pk self with None => true | Some _ => false end in
  saved ← Model_save w self;
  if negb is_new
  then Return (send_webapi_token_updated saved.1 saved.2, saved.2)
  else Return saved.

End Methods.

End Token.

Import Token.

(** ** WebAPIError *)

Module WebAPIError.

(** An instance of [WebAPIError]. *)
Record obj : Type := Obj {
  code : Z;
  msg : pyval;
  http_status : Z;
  headers : pyval
}.

(** The instances allocated so far; a reference is an index. *)
Abbreviation store := (list obj).

(** [WebAPIError(code, msg, http_status=400, headers={})]: a new
    instance.  The default of [headers] is one empty dict shared by the
    instances built without the argument; nothing here writes to it, so
    it is carried by value. *)
Definition __init__ (st : store) (code : Z) (msg : pyval)
    (http_status : option Z) (headers : option pyval) : store * nat :=
  (st ++ [ {| code := code;
              msg := msg;
              http_status := default 400%Z http_status;
              headers := default (PyDict []) headers |} ],
   length st).

Definition is_None (v : pyval) : bool :=
  match v with PyNone => true | _ => false end.

(** [with_overrides(self, msg=None, headers=None)]; an omitted argument
    is passed as [PyNone]. *)
Definition with_overrides (st : store) (self : nat) (msg headers : pyval)
    : option (store * nat) :=
  match st !! self with
  | None => None
  | Some this =>
    let headers := if is_None headers then WebAPIError.headers this
                   else headers in
    Some (__init__ st (code this)
            (if truthy msg then msg else WebAPIError.msg this)
            (Some (http_status this)) (Some headers))
  end.

(** [with_message(self, msg)] *)
Definition with_message (st : store) (self : nat) (msg : pyval)
    : option (store * nat) :=
  with_overrides st self msg PyNone.

(** Three of the module's standard errors: [NO_ERROR], [NOT_LOGGED_IN]
    and [ENABLE_EXTENSION_FAILED]. *)
Definition standard_errors : store :=
  let '(st, _) := __init__ [] 0 (PyStr "If you see this, yell at the developers")
                    None None in
  let '(st, _) := __init__ st 103 (PyStr "You are not logged in") (Some 401%Z)
                    (Some (PyFunc "_get_auth_headers")) in
  let '(st, _) := __init__ st 107
                    (PyStr "There was a problem enabling the extension")
                    (Some 500%Z) None in
  st.

End WebAPIError.

Import WebAPIError.

(** ** The section shape the validator asks for *)

(** A policy section is well shaped when it is a dict that has an
    [allow] key and/or a [block] key, and each of the two that is present
    holds a list. *)
Definition rule_is_list (rule : string) (sec : pydict) : bool :=
  match dict_get (KStr rule) sec with
  | Some v => isinstance_list v
  | None => true
  end.

Definition section_shape_ok (section : pyval) : bool :=
  match section with
  | PyDict sec =>
    (dict_contains (KStr "allow") sec || dict_contains (KStr "block") sec)
    && rule_is_list "allow" sec && rule_is_list "block" sec
  | _ => false
  end.

(** The exception is a [ValidationError], whatever its message. *)
Definition raises_ValidationError {A : Type} (r : result A) : Prop :=
  ∃ message, r = Raise (ValidationError message).

(** ** Resources reachable from a root *)

Inductive reachable : resource → resource → Prop :=
  | reachable_self r : reachable r r
  | reachable_list_child r child r' :
      child ∈ list_child_resources r → reachable child r' → reachable r r'
  | reachable_item_child r child r' :
      child ∈ item_child_resources r → reachable child r' → reachable r r'.

(** [k] is the [policy_id] of a resource reachable from [r]. *)
Definition names_reachable (k : pykey) (r : resource) : Prop :=
  ∃ r', reachable r r' ∧ policy_id r' = Some k.

(** ** Documents whose resource policies are dicts *)

(** Every resource policy of the document (a value of its [resources]
    section under a key other than ['*']) is a dict. *)
Definition resource_policies_are_dicts (policy : pyval) : bool :=
  match policy with
  | PyDict pol =>
    match dict_get (KStr "resources") pol with
    | Some (PyDict res) =>
      forallb (fun item => isinstance_dict item.2)
              (BaseWebAPIToken.resource_policies_of res)
    | _ => true
    end
  | _ => true
  end.

(** ** Example data: a small resource tree and a token class over it *)

Definition example_root : resource :=
  Resource None
    [ Resource (Some (KStr "repository")) []
        [ Resource (Some (KStr "diff")) [] [] ];
      Resource None [] [] ]
    [ Resource (Some (KStr "user")) [] [] ].

Definition ExampleToken : BaseWebAPIToken.token_class :=
  {| BaseWebAPIToken.get_root_resource := Return example_root |}.

Definition allow_all : pyval :=
  PyDict [(KStr "allow", PyList [PyStr "*"]); (KStr "block", PyList [])].

Definition block_not_a_list : pyval :=
  PyDict [(KStr "block", PyStr "DELETE")].

Definition policy_with_unknown_id : pyval :=
  PyDict [(KStr "resources",
           PyDict [(KStr "*", allow_all);
                   (KStr "repository", PyDict [(KStr "*", allow_all)]);
                   (KStr "bogus", allow_all);
                   (KStr "user", PyInt 0)])].

(** A database that gives a row without a primary key the next free
    one; it sends Django's [post_save] signal. *)
Definition counter_Model_save {User : Type}
    (w : Token.world (User := User) (DB := Z)) (self : Token.token User)
    : result (Token.world (User := User) (DB := Z) * Token.token User) :=
  let row_pk := default (db w) (pk self) in
  let saved := {| user := user self; expires := expires self;
                  pk := Some row_pk |} in
  Return ({| db := match pk self with
                   | None => (db w + 1)%Z
                   | Some _ => db w
                   end;
             sent := sent w ++ [SignalSent "post_save" saved] |},
          saved).

(** ** Accepted policies *)

(** A resource policy is in order when its key is a valid policy ID and
    its value is a dict whose subsections have string names and are well
    shaped. *)
Definition resource_policy_ok (valid_policy_ids : gset pykey)
    (item : pykey * pyval) : Prop :=
  item.1 ∈ valid_policy_ids
  ∧ ∃ sec, item.2 = PyDict sec
           ∧ ∀ sub, sub ∈ sec →
                    isinstance_str sub.1 = true
                    ∧ section_shape_ok sub.2 = true.

(** The resource policies of the document that are dicts hold each
    subsection name once. *)
Definition resource_policies_wf (res : pydict) : Prop :=
  ∀ k sec, (k, PyDict sec) ∈ res → dict_wf sec.

(** ** Strings: the methods of [str] used below *)

(** [sep.join(parts)] *)
Fixpoint join (sep : string) (parts : list string) : string :=
  match parts with
  | [] => EmptyString
  | [part] => part
  | part :: rest => part +:+ sep +:+ join sep rest
  end.

(** [s.split(sep)] for a separator of one character: the pieces between
    the occurrences of [sep]; never an empty list. *)
Fixpoint split (sep : Ascii.ascii) (s : string) : list string :=
  match s with
  | EmptyString => [EmptyString]
  | String c rest =>
    if decide (c = sep) then EmptyString :: split sep rest
    else match split sep rest with
         | piece :: pieces => String c piece :: pieces
         | [] => [String c EmptyString]
         end
  end.

(** [c in s], for a character [c]. *)
Fixpoint has_char (c : Ascii.ascii) (s : string) : bool :=
  match s with
  | EmptyString => false
  | String c' rest => bool_decide (c' = c) || has_char c rest
  end.

Definition hyphen : Ascii.ascii := Ascii.ascii_of_nat 45.
Definition dot : Ascii.ascii := Ascii.ascii_of_nat 46.

(** ** errors.py: the authentication headers of an error *)

Module AuthHeaders.

Section Backends.

Context {Request : Type}.

(** An authentication backend, as [_get_auth_headers] uses it: the
    attribute [www_auth_scheme] ([None] or a string) and the method
    [get_auth_headers(request)], which returns a dict of headers. *)
Record auth_backend : Type := AuthBackend {
  www_auth_scheme : option string;
  get_auth_headers : Request → gmap string string
}.

(** [if auth_backend.www_auth_scheme:] *)
Definition scheme_is_set (scheme : option string) : bool :=
  match scheme with
  | Some s => negb (String.eqb s EmptyString)
  | None => false
  end.

(** One turn of the loop over the backends; the state is the pair of
    [headers] and [www_auth_schemes]. *)
Definition add_backend (request : Request)
    (state : gmap string string * list string) (auth_backend : auth_backend)
    : gmap string string * list string :=
  let '(headers, www_auth_schemes) := state in
  let www_auth_schemes :=
    match www_auth_scheme auth_backend with
    | Some s => if scheme_is_set (Some s) then www_auth_schemes ++ [s]
                else www_auth_schemes
    | None => www_auth_schemes
    end in
  (get_auth_headers auth_backend request ∪ headers, www_auth_schemes).

(** [_get_auth_headers(request)]; [get_auth_backends] is the list that
    [get_auth_backends()] returns, each class instantiated. *)
Definition _get_auth_headers (get_auth_backends : list auth_backend)
    (request : Request) : gmap string string :=
  let '(headers, www_auth_schemes) :=
    fold_left (add_backend request) get_auth_backends (∅, []) in
  match www_auth_schemes with
  | [] => headers
  | _ => <[ "WWW-Authenticate" := join ", " www_auth_schemes ]> headers
  end.

(** The schemes of the backends that have one, in the order of the
    backends. *)
Definition schemes_of (backends : list auth_backend) : list string :=
  omap (fun b => if scheme_is_set (www_auth_scheme b)
                 then www_auth_scheme b else None) backends.

End Backends.

End AuthHeaders.

Import AuthHeaders.

(** ** extension.py: bundle IDs and extension information *)

Module Extension.

(** [Extension.get_bundle_id(self, name)]; [self_id] is [self.id]. *)
Definition get_bundle_id (self_id name : string) : string :=
  self_id +:+ "-" +:+ name.

(** The attributes of an extension class that [ExtensionInfo] reads. *)
Record ext_class : Type := ExtClass {
  id : string;
  __module__ : string;
  is_configurable : bool;
  has_admin_site : bool;
  metadata : option (gmap string string)
}.

End Extension.

Module ExtensionInfo.

(** An [ExtensionInfo] instance. *)
Record info : Type := Info {
  package_name : string;
  module_name : string;
  app_name : string;
  is_configurable : bool;
  has_admin_site : bool;
  installed_htdocs_path : string;
  installed_static_path : string;
  enabled : bool;
  installed : bool;
  requirements : list string;
  apps_registered : bool;
  context_processors_registered : bool;
  metadata : gmap string string;
  name : string;
  version : option string;
  summary : option string;
  description : option string;
  author : option string;
  author_email : option string;
  license : option string;
  url : option string;
  author_url : option string
}.

(** What is passed as [ext_class]: a class, or a value that is not a
    class (for which [issubclass] raises [TypeError]). *)
Inductive ext_class_arg : Type :=
  | AClass (c : Extension.ext_class)
  | NotAClass (v : pyval).

Inductive init_error : Type :=
  | TypeError (message : string).

Section Init.

(** Django's settings and [os.path.join]. *)
Variables (MEDIA_ROOT STATIC_ROOT : string).
Variable os_path_join : list string → string.

(** [ExtensionInfo.__init__(self, ext_class, package_name, metadata={})].
    The default of [metadata] is one dict, made when the function is
    defined; [shared_default] is its content before the call and the
    second component of the result its content after it.  A dict passed
    in by the caller is the same object as [self.metadata] afterwards, so
    the caller sees the content of that field.  The fields of the result
    are the values the attributes have when [__init__] returns. *)
Definition __init__ (shared_default : gmap string string)
    (ext_class : ext_class_arg) (package_name : string)
    (metadata : option (gmap string string))
    : init_error + info * gmap string string :=
  match ext_class with
  | NotAClass _ =>
    inl (TypeError "Invalid parameters passed to ExtensionInfo.__init__")
  | AClass ext_class =>
    let original := default shared_default metadata in
    let updated :=
      match Extension.metadata ext_class with
      | Some own => own ∪ original
      | None => original
      end in
    let url := updated !! "Home-page" in
    inr ({| package_name := package_name;
            module_name := Extension.__module__ ext_class;
            app_name :=
              join "." (removelast (split dot (Extension.__module__ ext_class)));
            is_configurable := Extension.is_configurable ext_class;
            has_admin_site := Extension.has_admin_site ext_class;
            installed_htdocs_path :=
              os_path_join [MEDIA_ROOT; "ext"; package_name];
            installed_static_path :=
              os_path_join [STATIC_ROOT; "ext"; Extension.id ext_class];
            enabled := false;
            installed := false;
            requirements := [];
            apps_registered := false;
            context_processors_registered := false;
            metadata := updated;
            name := default package_name (updated !! "Name");
            version := updated !! "Version";
            summary := updated !! "Summary";
            description := updated !! "Description";
            author := updated !! "Author";
            author_email := updated !! "Author-email";
            license := updated !! "License";
            url := url;
            author_url := match updated !! "Author-home-page" with
                          | Some v => Some v
                          | None => url
                          end |},
         match metadata with
         | Some _ => shared_default
         | None => updated
         end)
  end.

(** [create_from_entrypoint(cls, entrypoint, ext_class)];
    [entrypoint_metadata] is what [_get_metadata_from_entrypoint] returns
    for the entry point. *)
Definition create_from_entrypoint (shared_default : gmap string string)
    (entrypoint_metadata : gmap string string)
    (ext_class : Extension.ext_class)
    : init_error + info * gmap string string :=
  __init__ shared_default (AClass ext_class)
    (default (Extension.id ext_class) (entrypoint_metadata !! "Name"))
    (Some entrypoint_metadata).

End Init.

End ExtensionInfo.

(** * Proofs *)

Section DictFacts.

Lemma dict_get_is_Some k v (d : pydict) :
  (k, v) ∈ d → is_Some (dict_get k d).
Proof.
  induction d as [|[k' v'] d IH]; simpl.
  - intros H. by apply not_elem_of_nil in H.
  - intros [[= -> ->]|H]%elem_of_cons.
    + rewrite decide_True; eauto.
    + destruct (decide (k = k')); eauto.
Qed.

Lemma dict_get_wf k v (d : pydict) :
  dict_wf d → (k, v) ∈ d → dict_get k d = Some v.
Proof.
  unfold dict_wf.
  induction d as [|[k' v'] d IH]; simpl.
  - intros _ H. by apply not_elem_of_nil in H.
  - intros [Hnotin Hnd]%NoDup_cons [[= -> ->]|H]%elem_of_cons.
    + by rewrite decide_True.
    + destruct (decide (k = k')) as [->|Hne]; [|auto].
      exfalso. apply Hnotin. apply list_elem_of_fmap. by exists (k', v).
Qed.

End DictFacts.

Section Loops.

Context {A : Type} (body : A → result unit).

Lemma for_each_reaches pre x post :
  Forall (fun y => body y = Return tt) pre →
  for_each body (pre ++ x :: post) = (body x;; for_each body post).
Proof.
  induction 1 as [|y pre Hy _ IH]; simpl; [done|].
  by rewrite Hy.
Qed.

(** A loop raises only what its body raises. *)
Lemma for_each_Raise l e :
  for_each body l = Raise e → ∃ x, x ∈ l ∧ body x = Raise e.
Proof.
  induction l as [|x l IH]; simpl; [done|].
  destruct (body x) as [[]|e'] eqn:Hx; simpl.
  - intros (y & Hy & He)%IH. exists y. split; [by apply list_elem_of_further | done].
  - intros [= ->]. exists x. split; [apply list_elem_of_here | done].
Qed.

End Loops.

Section SectionCheck.

Variables (parent_section : pydict) (section_name : pykey)
          (full_section_name : string) (section : pyval).
Hypothesis Hget : dict_get section_name parent_section = Some section.

Lemma validate_policy_section_ok :
  section_shape_ok section = true →
  _validate_policy_section parent_section section_name full_section_name
    = Return tt.
Proof using Hget.
  unfold _validate_policy_section. rewrite Hget.
  destruct section as [| | | | | |sec|]; simpl; try done.
  unfold rule_is_list, dict_contains.
  destruct (dict_get (KStr "allow") sec) as [a|];
    destruct (dict_get (KStr "block") sec) as [b|]; simpl;
    try destruct (isinstance_list a); try destruct (isinstance_list b);
    simpl; done.
Qed.

Lemma validate_policy_section_bad :
  section_shape_ok section = false →
  raises_ValidationError
    (_validate_policy_section parent_section section_name full_section_name).
Proof using Hget.
  unfold _validate_policy_section, raises_ValidationError. rewrite Hget.
  destruct section as [| | | | | |sec|]; simpl; eauto.
  unfold rule_is_list, dict_contains.
  destruct (dict_get (KStr "allow") sec) as [a|];
    destruct (dict_get (KStr "block") sec) as [b|]; simpl;
    try destruct (isinstance_list a); try destruct (isinstance_list b);
    simpl; eauto; done.
Qed.

Lemma validate_policy_section_cases :
  _validate_policy_section parent_section section_name full_section_name
    = Return tt
  ∨ raises_ValidationError
      (_validate_policy_section parent_section section_name
         full_section_name).
Proof using Hget.
  destruct (section_shape_ok section) eqn:Hshape.
  - left. by apply validate_policy_section_ok.
  - right. by apply validate_policy_section_bad.
Qed.

End SectionCheck.

(** The check of the ['*'] entry, and the loop over the named resource
    policies, as they occur in [validate_policy]. *)
Abbreviation star_check res :=
  (if dict_contains (KStr "*") res
   then _validate_policy_section res (KStr "*") "resources.*"
   else Return tt).

Abbreviation valid_ids root := (_get_valid_policy_ids root None).

Lemma validate_resource_policy_valid valid_policy_ids policy_id sec :
  policy_id ∈ valid_policy_ids →
  validate_resource_policy valid_policy_ids (policy_id, PyDict sec)
  = for_each (validate_subsection policy_id sec) sec.
Proof.
  intros Hin. unfold validate_resource_policy.
  by rewrite bool_decide_eq_true_2.
Qed.

Lemma validate_resource_policy_invalid valid_policy_ids policy_id section :
  policy_id ∉ valid_policy_ids →
  validate_resource_policy valid_policy_ids (policy_id, section)
  = Raise (ValidationError
      (dq +:+ str_of_key policy_id +:+ dq
       +:+ " is not a valid resource policy ID.")).
Proof.
  intros Hin. unfold validate_resource_policy.
  by rewrite bool_decide_eq_false_2.
Qed.

Lemma validate_subsection_str policy_id sec name subsection :
  validate_subsection policy_id sec (KStr name, subsection)
  = _validate_policy_section sec (KStr name)
      ("resources." +:+ str_of_key policy_id +:+ "." +:+ name).
Proof. reflexivity. Qed.

Section Reaching.

Variables (cls : token_class) (pol res : pydict).
Hypothesis Hres : dict_get (KStr "resources") pol = Some (PyDict res).

(** Past the top-level checks, [validate_policy] is the check of the
    ['*'] entry followed by the loop over the resource policies. *)
Lemma validate_policy_resources :
  res ≠ [] →
  validate_policy cls (PyDict pol)
  = (star_check res;;
     if truthy (PyDict (resource_policies_of res))
     then root ← get_root_resource cls;
          for_each (validate_resource_policy (valid_ids root))
                   (resource_policies_of res)
     else Return tt).
Proof using Hres.
  intros Hne. unfold validate_policy.
  destruct pol as [|entry pol']; [done|].
  cbn [truthy negb]. unfold dict_contains at 1. rewrite Hres. cbn [negb].
  destruct res as [|entry' res']; done.
Qed.

Lemma star_check_ok :
  (∀ star, dict_get (KStr "*") res = Some star →
           section_shape_ok star = true) →
  star_check res = Return tt.
Proof.
  intros Hstar. unfold dict_contains.
  destruct (dict_get (KStr "*") res) as [star|] eqn:Hget; [|done].
  eapply validate_policy_section_ok; eauto.
Qed.

Variables (root : resource) (pre post : pydict) (policy_id : pykey)
          (section : pyval).
Hypothesis Hstar : ∀ star, dict_get (KStr "*") res = Some star →
                           section_shape_ok star = true.
Hypothesis Hroot : get_root_resource cls = Return root.
Hypothesis Hsplit :
  resource_policies_of res = pre ++ (policy_id, section) :: post.
Hypothesis Hpre :
  Forall (fun item =>
            validate_resource_policy (valid_ids root) item = Return tt) pre.

(** When the ['*'] entry and the resource policies before
    [(policy_id, section)] pass, validation continues with that pair. *)
Lemma validate_policy_reaches_resource_policy :
  validate_policy cls (PyDict pol)
  = (validate_resource_policy (valid_ids root) (policy_id, section);;
     for_each (validate_resource_policy (valid_ids root)) post).
Proof using Hres Hstar Hroot Hsplit Hpre.
  assert (res ≠ []) as Hne.
  { intros ->. destruct pre; discriminate Hsplit. }
  rewrite validate_policy_resources by done.
  rewrite star_check_ok by done. rewrite Hsplit.
  replace (truthy (PyDict (pre ++ (policy_id, section) :: post)))
    with true by (by destruct pre).
  rewrite Hroot. cbn [mbind result_bind].
  by apply for_each_reaches.
Qed.

Variables (sec spre spost : pydict) (name : string) (subsection : pyval).
Hypothesis Hsection : section = PyDict sec.
Hypothesis Hvalid : policy_id ∈ valid_ids root.
Hypothesis Hsec : sec = spre ++ (KStr name, subsection) :: spost.
Hypothesis Hwf : dict_wf sec.
Hypothesis Hspre :
  Forall (fun item => validate_subsection policy_id sec item = Return tt)
         spre.

(** Likewise for a subsection of a resource policy with a valid ID. *)
Lemma validate_policy_reaches_subsection :
  validate_policy cls (PyDict pol)
  = (_validate_policy_section sec (KStr name)
       ("resources." +:+ str_of_key policy_id +:+ "." +:+ name);;
     for_each (validate_subsection policy_id sec) spost;;
     for_each (validate_resource_policy (valid_ids root)) post).
Proof using Hres Hstar Hroot Hsplit Hpre Hsection Hvalid Hsec Hspre.
  rewrite validate_policy_reaches_resource_policy.
  rewrite Hsection, validate_resource_policy_valid by done.
  rewrite Hsec at 2. rewrite for_each_reaches by done.
  rewrite validate_subsection_str.
  by destruct (_validate_policy_section _ _ _).
Qed.

Lemma subsection_lookup : dict_get (KStr name) sec = Some subsection.
Proof using Hsec Hwf.
  apply dict_get_wf; [done|]. rewrite Hsec.
  apply elem_of_app. right. apply list_elem_of_here.
Qed.

End Reaching.

(** ** Top-level checks *)

(** C4: [validate_policy] applied to an empty dict returns without
    raising, for every token class: no further check is made. *)
Theorem C4_empty_policy_accepted (cls : token_class) :
  validate_policy cls (PyDict []) = Return tt.
Proof. reflexivity. Qed.

(** C5: [validate_policy] raises [ValidationError] when the policy is not
    a dict, when it is a non-empty dict without a [resources] key, when
    the value of [resources] is not a dict, and when that value is an
    empty dict. *)
Theorem C5_top_level_errors (cls : token_class) :
  (∀ policy,
     isinstance_dict policy = false →
     validate_policy cls policy
     = Raise (ValidationError "The policy must be a JSON object."))
  ∧ (∀ pol,
       pol ≠ [] →
       dict_contains (KStr "resources") pol = false →
       validate_policy cls (PyDict pol)
       = Raise (ValidationError
           ("The policy is missing a " +:+ dq +:+ "resources" +:+ dq
            +:+ " section.")))
  ∧ (∀ pol resources_section,
       dict_get (KStr "resources") pol = Some resources_section →
       isinstance_dict resources_section = false →
       validate_policy cls (PyDict pol)
       = Raise (ValidationError
           ("The policy's " +:+ dq +:+ "resources" +:+ dq
            +:+ " section must be a JSON object.")))
  ∧ (∀ pol,
       dict_get (KStr "resources") pol = Some (PyDict []) →
       validate_policy cls (PyDict pol)
       = Raise (ValidationError
           ("The policy's " +:+ dq +:+ "resources" +:+ dq
            +:+ " section must not be empty."))).
Proof.
  repeat split.
  - intros policy Hnd. by destruct policy.
  - intros pol Hne Hno. unfold validate_policy.
    destruct pol; [done|]. cbn [truthy negb]. by rewrite Hno.
  - intros pol rs Hget Hnd. unfold validate_policy.
    destruct pol; [done|]. cbn [truthy negb].
    unfold dict_contains. rewrite Hget. by destruct rs.
  - intros pol Hget. unfold validate_policy.
    destruct pol; [done|]. cbn [truthy negb].
    unfold dict_contains. by rewrite Hget.
Qed.

Lemma C5_top_level_errors_witness :
  raises_ValidationError (validate_policy base (PyList []))
  ∧ raises_ValidationError
      (validate_policy base (PyDict [(KStr "version", PyInt 1)]))
  ∧ raises_ValidationError
      (validate_policy base (PyDict [(KStr "resources", PyStr "*")]))
  ∧ raises_ValidationError
      (validate_policy base (PyDict [(KStr "resources", PyDict [])])).
Proof.
  destruct (C5_top_level_errors base) as (H1 & H2 & H3 & H4).
  repeat split; eexists.
  - apply H1. reflexivity.
  - apply H2; [discriminate | reflexivity].
  - eapply H3; reflexivity.
  - apply H4. reflexivity.
Defined.

(** C6: when the [resources] section of a non-empty policy holds only the
    key ['*'], with a well-shaped value, [validate_policy] accepts the
    policy whatever [get_root_resource] would do: for every token class,
    and so for the base class, whose [get_root_resource] raises
    [NotImplementedError]. *)
Theorem C6_star_only_never_consults_root
    (pol res : pydict) (star : pyval) :
  dict_get (KStr "resources") pol = Some (PyDict res) →
  Forall (fun item => item.1 = KStr "*") res →
  dict_get (KStr "*") res = Some star →
  section_shape_ok star = true →
  (∀ cls, validate_policy cls (PyDict pol) = Return tt)
  ∧ get_root_resource base = Raise NotImplementedError
  ∧ validate_policy base (PyDict pol) = Return tt.
Proof.
  intros Hres Honly Hstar Hshape.
  assert (∀ cls, validate_policy cls (PyDict pol) = Return tt) as Hall.
  { intros cls.
    rewrite (validate_policy_resources cls pol res Hres)
      by (intros ->; discriminate Hstar).
    rewrite star_check_ok by (intros ? ?; congruence).
    replace (resource_policies_of res) with (@nil (pykey * pyval)); [done|].
    unfold resource_policies_of. symmetry.
    clear Hres Hstar. induction Honly as [|item res' Hitem _ IH]; [done|].
    rewrite filter_cons. destruct (decide _) as [Hne|_]; [by destruct Hne | done]. }
  auto.
Qed.

Lemma C6_star_only_never_consults_root_witness :
  validate_policy base
    (PyDict [(KStr "resources", PyDict [(KStr "*", allow_all)])])
  = Return tt.
Proof.
  apply (C6_star_only_never_consults_root
           [(KStr "resources", PyDict [(KStr "*", allow_all)])]
           [(KStr "*", allow_all)] allow_all).
  - reflexivity.
  - repeat constructor.
  - reflexivity.
  - reflexivity.
Defined.

(** ** The section shape check *)

(** C1: every policy section that validation reaches is held to the same
    shape.  (1) Each call of [_validate_policy_section] on a section
    returns when the section is well shaped and raises [ValidationError]
    when it is not.  (2) For the ['*'] entry of [resources], an ill-shaped
    value makes [validate_policy] raise [ValidationError], a well-shaped
    one lets validation go on to the resource policies.  (3) For a
    subsection of a resource policy with a valid policy ID, reached
    because everything before it passed, an ill-shaped value makes
    [validate_policy] raise [ValidationError], a well-shaped one lets
    validation go on to the subsections and resource policies after
    it. *)
Theorem C1_section_shape_check :
  (∀ parent_section section_name full_section_name section,
     dict_get section_name parent_section = Some section →
     (section_shape_ok section = true →
      _validate_policy_section parent_section section_name full_section_name
        = Return tt)
     ∧ (section_shape_ok section = false →
        raises_ValidationError
          (_validate_policy_section parent_section section_name
             full_section_name)))
  ∧ (∀ cls pol res star,
       dict_get (KStr "resources") pol = Some (PyDict res) →
       dict_get (KStr "*") res = Some star →
       (section_shape_ok star = false →
        raises_ValidationError (validate_policy cls (PyDict pol)))
       ∧ (section_shape_ok star = true →
          validate_policy cls (PyDict pol)
          = if truthy (PyDict (resource_policies_of res))
            then root ← get_root_resource cls;
                 for_each (validate_resource_policy (valid_ids root))
                          (resource_policies_of res)
            else Return tt))
  ∧ (∀ cls pol res root pre post policy_id sec spre spost name subsection,
       dict_get (KStr "resources") pol = Some (PyDict res) →
       (∀ star, dict_get (KStr "*") res = Some star →
                section_shape_ok star = true) →
       get_root_resource cls = Return root →
       resource_policies_of res = pre ++ (policy_id, PyDict sec) :: post →
       Forall (fun item =>
                 validate_resource_policy (valid_ids root) item = Return tt)
              pre →
       policy_id ∈ valid_ids root →
       sec = spre ++ (KStr name, subsection) :: spost →
       dict_wf sec →
       Forall (fun item =>
                 validate_subsection policy_id sec item = Return tt) spre →
       (section_shape_ok subsection = false →
        raises_ValidationError (validate_policy cls (PyDict pol)))
       ∧ (section_shape_ok subsection = true →
          validate_policy cls (PyDict pol)
          = (for_each (validate_subsection policy_id sec) spost;;
             for_each (validate_resource_policy (valid_ids root)) post))).
Proof.
  split; [|split].
  - intros parent name full section Hget. split.
    + by apply validate_policy_section_ok.
    + by apply validate_policy_section_bad.
  - intros cls pol res star Hres Hstar.
    assert (res ≠ []) as Hne by (intros ->; discriminate Hstar).
    rewrite (validate_policy_resources cls pol res Hres Hne).
    unfold dict_contains. rewrite Hstar. split; intros Hshape.
    + destruct (validate_policy_section_bad res (KStr "*") "resources.*"
                  star Hstar Hshape) as [msg ->].
      by exists msg.
    + by rewrite (validate_policy_section_ok res (KStr "*") "resources.*"
                    star Hstar Hshape).
  - intros cls pol res root pre post policy_id sec spre spost name
      subsection Hres Hstar Hroot Hsplit Hpre Hvalid Hsec Hwf Hspre.
    rewrite (validate_policy_reaches_subsection cls pol res Hres root pre
               post policy_id (PyDict sec) Hstar Hroot Hsplit Hpre sec spre
               spost name subsection eq_refl Hvalid Hsec Hspre).
    pose proof (subsection_lookup sec spre spost name subsection Hsec Hwf)
      as Hget.
    split; intros Hshape.
    + destruct (validate_policy_section_bad sec (KStr name)
                  ("resources." +:+ str_of_key policy_id +:+ "." +:+ name)
                  subsection Hget Hshape) as [msg ->].
      by exists msg.
    + by rewrite (validate_policy_section_ok sec (KStr name)
                    ("resources." +:+ str_of_key policy_id +:+ "." +:+ name)
                    subsection Hget Hshape).
Qed.

Lemma C1_section_shape_check_witness :
  raises_ValidationError
    (_validate_policy_section [(KStr "*", block_not_a_list)] (KStr "*")
       "resources.*")
  ∧ raises_ValidationError
      (validate_policy base
         (PyDict [(KStr "resources",
                   PyDict [(KStr "*", block_not_a_list)])]))
  ∧ raises_ValidationError
      (validate_policy ExampleToken
         (PyDict [(KStr "resources",
                   PyDict [(KStr "*", allow_all);
                           (KStr "repository",
                            PyDict [(KStr "*", allow_all);
                                    (KStr "42", block_not_a_list)])])])).
Proof.
  destruct C1_section_shape_check as (Hcall & Hstar & Hsub).
  split; [|split].
  - apply (Hcall [(KStr "*", block_not_a_list)] (KStr "*") "resources.*"
             block_not_a_list); reflexivity.
  - apply (Hstar base
             [(KStr "resources", PyDict [(KStr "*", block_not_a_list)])]
             [(KStr "*", block_not_a_list)] block_not_a_list);
      reflexivity.
  - apply (Hsub ExampleToken _
             [(KStr "*", allow_all);
              (KStr "repository",
               PyDict [(KStr "*", allow_all);
                       (KStr "42", block_not_a_list)])]
             example_root [] [] (KStr "repository")
             [(KStr "*", allow_all); (KStr "42", block_not_a_list)]
             [(KStr "*", allow_all)] [] "42" block_not_a_list).
    + reflexivity.
    + intros star [= <-]. reflexivity.
    + reflexivity.
    + reflexivity.
    + constructor.
    + apply (bool_decide_unpack _). vm_compute. exact I.
    + reflexivity.
    + unfold dict_wf. apply (bool_decide_unpack _). vm_compute. exact I.
    + repeat constructor.
    + reflexivity.
Defined.

(** ** The set of valid policy IDs *)

Lemma resource_nested_ind (P : resource → Prop) :
  (∀ p l i, Forall P l → Forall P i → P (Resource p l i)) →
  ∀ r, P r.
Proof.
  intros Hstep. fix IH 1. intros [p l i]. apply Hstep.
  - induction l as [|c l IHl]; constructor; [apply IH | exact IHl].
  - induction i as [|c i IHi]; constructor; [apply IH | exact IHi].
Qed.

Lemma get_valid_policy_ids_unfold res result :
  _get_valid_policy_ids res result
  = fold_left (fun acc child_resource =>
                 _get_valid_policy_ids child_resource (Some acc))
      (item_child_resources res)
      (fold_left (fun acc child_resource =>
                    _get_valid_policy_ids child_resource (Some acc))
         (list_child_resources res)
         (match policy_id res with
          | Some p => {[ p ]} ∪ default ∅ result
          | None => default ∅ result
          end)).
Proof. destruct res, result; reflexivity. Qed.

Section ValidIds.

Variable k : pykey.

(** What the recursion maintains at a resource [r]. *)
Let collects (r : resource) : Prop :=
  ∀ result,
    k ∈ _get_valid_policy_ids r result
    ↔ k ∈ default ∅ result ∨ names_reachable k r.

Lemma fold_children_collects (children : list resource) (s : gset pykey) :
  Forall collects children →
  k ∈ fold_left (fun acc child_resource =>
                   _get_valid_policy_ids child_resource (Some acc))
        children s
  ↔ k ∈ s ∨ ∃ child, child ∈ children ∧ names_reachable k child.
Proof.
  intros Hall. revert s.
  induction Hall as [|c children Hc _ IH]; intros s; simpl.
  - split; [auto|]. intros [?|(c & Hin & _)]; [done|].
    by apply not_elem_of_nil in Hin.
  - rewrite IH, (Hc (Some s)). simpl. split.
    + intros [[?|Hr]|(c' & Hin & Hr)]; [by left| |].
      * right. exists c. split; [apply list_elem_of_here | done].
      * right. exists c'. split; [by apply list_elem_of_further | done].
    + intros [?|(c' & [->|Hin]%elem_of_cons & Hr)]; [by left; left| |].
      * by left; right.
      * right. by exists c'.
Qed.

Lemma get_valid_policy_ids_collects r : collects r.
Proof.
  induction r as [p l i IHl IHi] using resource_nested_ind.
  intros result. rewrite get_valid_policy_ids_unfold. simpl.
  rewrite !fold_children_collects by done.
  assert (k ∈ match p with
              | Some p' => {[ p' ]} ∪ default ∅ result
              | None => default ∅ result
              end
          ↔ k ∈ default ∅ result ∨ p = Some k) as ->.
  { destruct p as [p'|].
    - rewrite elem_of_union, elem_of_singleton.
      split; [intros [->|?]; [by right | by left]|].
      intros [?|[= ->]]; [by right | by left].
    - split; [auto|]. by intros [?|?]. }
  unfold names_reachable. split.
  - intros [[[?|Hp]|(c & Hin & r' & Hr & Hid)]|(c & Hin & r' & Hr & Hid)].
    + by left.
    + right. exists (Resource p l i). split; [constructor | done].
    + right. exists r'. split; [|done].
      by apply reachable_list_child with c.
    + right. exists r'. split; [|done].
      by apply reachable_item_child with c.
  - intros [?|(r' & Hr & Hid)]; [by left; left; left|].
    inversion Hr as [|? c ? Hin Hr'|? c ? Hin Hr']; subst; simpl in *.
    + by left; left; right.
    + left; right. exists c. split; [done|]. by exists r'.
    + right. exists c. split; [done|]. by exists r'.
Qed.

End ValidIds.

Lemma valid_ids_reachable root k :
  k ∈ valid_ids root ↔ names_reachable k root.
Proof.
  rewrite (get_valid_policy_ids_collects k root None). simpl.
  split; [|auto]. intros [Hin|?]; [|done]. by apply not_elem_of_empty in Hin.
Qed.

Lemma validate_resource_policy_Return valid_policy_ids item :
  validate_resource_policy valid_policy_ids item = Return tt →
  item.1 ∈ valid_policy_ids.
Proof.
  destruct item as [pid section]. unfold validate_resource_policy.
  destruct (bool_decide (pid ∈ valid_policy_ids)) eqn:Hin; [|done].
  intros _. by apply bool_decide_eq_true in Hin.
Qed.

(** ** Unknown policy IDs *)

(** C3, as the code has it: (1) [_get_valid_policy_ids] computes exactly
    the set of [policy_id] attributes of the resources reachable from the
    root through [list_child_resources] and [item_child_resources].
    (2) When [get_root_resource] returns a root, the ['*'] entry (if
    there is one) is well shaped, and every resource policy before the
    key [pid] validates without error (so that their keys are all valid
    and [pid] is the first key that is not), [validate_policy] raises
    the [ValidationError] that names [pid]. *)
Theorem C3_first_unknown_policy_id :
  (∀ root k, k ∈ valid_ids root ↔ names_reachable k root)
  ∧ (∀ cls pol res root pre post pid section,
       dict_get (KStr "resources") pol = Some (PyDict res) →
       (∀ star, dict_get (KStr "*") res = Some star →
                section_shape_ok star = true) →
       get_root_resource cls = Return root →
       resource_policies_of res = pre ++ (pid, section) :: post →
       Forall (fun item =>
                 validate_resource_policy (valid_ids root) item = Return tt)
              pre →
       ¬ names_reachable pid root →
       Forall (fun item => names_reachable item.1 root) pre
       ∧ pid ≠ KStr "*"
       ∧ validate_policy cls (PyDict pol)
         = Raise (ValidationError
             (dq +:+ str_of_key pid +:+ dq
              +:+ " is not a valid resource policy ID."))).
Proof.
  split; [apply valid_ids_reachable|].
  intros cls pol res root pre post pid section Hres Hstar Hroot Hsplit Hpre
    Hunknown.
  split; [|split].
  - eapply Forall_impl; [exact Hpre|]. intros item Hitem. simpl in Hitem.
    by apply valid_ids_reachable, validate_resource_policy_Return.
  - assert ((pid, section) ∈ resource_policies_of res) as Hin.
    { rewrite Hsplit. apply elem_of_app. right. apply list_elem_of_here. }
    unfold resource_policies_of in Hin.
    by apply list_elem_of_filter in Hin as [Hne _].
  - rewrite (validate_policy_reaches_resource_policy cls pol res Hres root
               pre post pid section Hstar Hroot Hsplit Hpre).
    rewrite validate_resource_policy_invalid; [done|].
    by rewrite valid_ids_reachable.
Qed.

Lemma C3_first_unknown_policy_id_witness :
  validate_policy ExampleToken policy_with_unknown_id
  = Raise (ValidationError
      (dq +:+ "bogus" +:+ dq +:+ " is not a valid resource policy ID.")).
Proof.
  destruct C3_first_unknown_policy_id as [_ Hraise].
  apply (Hraise ExampleToken
           [(KStr "resources",
             PyDict [(KStr "*", allow_all);
                     (KStr "repository", PyDict [(KStr "*", allow_all)]);
                     (KStr "bogus", allow_all);
                     (KStr "user", PyInt 0)])]
           [(KStr "*", allow_all);
            (KStr "repository", PyDict [(KStr "*", allow_all)]);
            (KStr "bogus", allow_all);
            (KStr "user", PyInt 0)]
           example_root
           [(KStr "repository", PyDict [(KStr "*", allow_all)])]
           [(KStr "user", PyInt 0)]
           (KStr "bogus") allow_all).
  - reflexivity.
  - intros star [= <-]. reflexivity.
  - reflexivity.
  - reflexivity.
  - repeat constructor.
  - rewrite <- valid_ids_reachable.
    apply (bool_decide_eq_false_1 _). vm_compute. reflexivity.
Defined.

(** C3 as stated fails: with an unknown key in [resources], the base
    class raises [NotImplementedError] (its [get_root_resource] does),
    and a token class with a resource tree raises the error of an earlier
    resource policy, not the one naming the unknown key. *)
Lemma C3_counterexample :
  let unknown := (KStr "bogus", allow_all) in
  let earlier := (KStr "repository", PyDict [(KStr "*", block_not_a_list)]) in
  validate_policy base (PyDict [(KStr "resources", PyDict [unknown])])
  = Raise NotImplementedError
  ∧ bool_decide (KStr "repository" ∈ valid_ids example_root) = true
  ∧ bool_decide (KStr "bogus" ∈ valid_ids example_root) = false
  ∧ validate_policy ExampleToken
      (PyDict [(KStr "resources", PyDict [earlier; unknown])])
    = Raise (ValidationError
        ("The " +:+ dq +:+ "resources.repository.*" +:+ dq +:+ " section's "
         +:+ dq +:+ "block" +:+ dq +:+ " rule must be a list.")).
Proof. vm_compute. repeat split. Qed.

(** ** Which exceptions escape *)

Lemma validate_subsection_Raise policy_id sec item e :
  item ∈ sec →
  validate_subsection policy_id sec item = Raise e →
  ∃ message, e = ValidationError message.
Proof.
  destruct item as [name subsection]. intros Hin.
  unfold validate_subsection. cbn [fst].
  destruct (isinstance_str name); cbn [negb]; [|intros [= <-]; eauto].
  destruct (dict_get_is_Some _ _ _ Hin) as [section Hget].
  destruct (validate_policy_section_cases sec name
              ("resources." +:+ str_of_key policy_id +:+ "."
               +:+ str_of_key name) section Hget) as [->|[msg ->]];
    [done | intros [= <-]; eauto].
Qed.

Lemma validate_resource_policy_Raise valid_policy_ids item e :
  isinstance_dict item.2 = true →
  validate_resource_policy valid_policy_ids item = Raise e →
  ∃ message, e = ValidationError message.
Proof.
  destruct item as [pid section]. cbn [snd]. intros Hdict.
  destruct section as [| | | | | |sec|]; try discriminate Hdict.
  unfold validate_resource_policy.
  destruct (bool_decide (pid ∈ valid_policy_ids)); cbn [negb];
    [|intros [= <-]; eauto].
  cbn [items mbind result_bind].
  intros (sub & Hin & Hsub)%for_each_Raise.
  by eapply validate_subsection_Raise.
Qed.

(** One of the top-level checks fails: the branch taken is decided by the
    lookup [Hres] of the [resources] key. *)
Ltac top_level_error Hres :=
  right; left; unfold validate_policy, dict_contains;
  rewrite Hres; by eexists.

(** C2, as the code has it: when the resource policies of the document
    are dicts, [validate_policy] returns, raises [ValidationError], or
    lets the exception of [get_root_resource] escape; the last happens
    only when [resources] has a key other than ['*']. *)
Theorem C2_escaping_exceptions (cls : token_class) (policy : pyval) :
  resource_policies_are_dicts policy = true →
  validate_policy cls policy = Return tt
  ∨ raises_ValidationError (validate_policy cls policy)
  ∨ ∃ e pol res,
      policy = PyDict pol
      ∧ dict_get (KStr "resources") pol = Some (PyDict res)
      ∧ resource_policies_of res ≠ []
      ∧ get_root_resource cls = Raise e
      ∧ validate_policy cls policy = Raise e.
Proof.
  unfold raises_ValidationError. intros Hdicts.
  destruct policy as [| | | | | |pol|]; try (right; left; by eexists).
  destruct pol as [|entry pol']; [by left|].
  set (pol := entry :: pol') in *.
  destruct (dict_get (KStr "resources") pol) as [rs|] eqn:Hres;
    [|top_level_error Hres].
  destruct rs as [| | | | | |res|]; try top_level_error Hres.
  destruct res as [|rentry res']; [top_level_error Hres|].
  set (res := rentry :: res') in *.
  unfold resource_policies_are_dicts in Hdicts. rewrite Hres in Hdicts.
  rewrite (validate_policy_resources cls pol res Hres) by done.
  assert (star_check res = Return tt
          ∨ raises_ValidationError (star_check res)) as [->|[msg ->]].
  { unfold dict_contains.
    destruct (dict_get (KStr "*") res) as [star|] eqn:Hstar; [|by left].
    by eapply validate_policy_section_cases. }
  2: { right; left. by exists msg. }
  cbn [mbind result_bind].
  destruct (resource_policies_of res) as [|item rp] eqn:Hrp; [by left|].
  cbn [truthy].
  destruct (get_root_resource cls) as [root|e] eqn:Hroot.
  2: { right; right. exists e, pol, res. rewrite Hrp. by repeat split. }
  cbn [mbind result_bind].
  destruct (for_each _ (item :: rp)) as [[]|e] eqn:Hloop; [by left|].
  right; left.
  apply for_each_Raise in Hloop as (bad & Hin & Hbad).
  apply validate_resource_policy_Raise in Hbad as [msg ->]; [by exists msg|].
  rewrite forallb_forall in Hdicts. apply Hdicts.
  by apply list_elem_of_In.
Qed.

Lemma C2_escaping_exceptions_witness :
  validate_policy ExampleToken
    (PyDict [(KStr "resources",
              PyDict [(KStr "*", allow_all);
                      (KStr "user", PyDict [(KInt 7, allow_all)])])])
  = Return tt
  ∨ raises_ValidationError
      (validate_policy ExampleToken
         (PyDict [(KStr "resources",
                   PyDict [(KStr "*", allow_all);
                           (KStr "user", PyDict [(KInt 7, allow_all)])])]))
  ∨ ∃ e pol res,
      PyDict [(KStr "resources",
               PyDict [(KStr "*", allow_all);
                       (KStr "user", PyDict [(KInt 7, allow_all)])])]
      = PyDict pol
      ∧ dict_get (KStr "resources") pol = Some (PyDict res)
      ∧ resource_policies_of res ≠ []
      ∧ get_root_resource ExampleToken = Raise e
      ∧ validate_policy ExampleToken
          (PyDict [(KStr "resources",
                    PyDict [(KStr "*", allow_all);
                            (KStr "user", PyDict [(KInt 7, allow_all)])])])
        = Raise e.
Proof. apply C2_escaping_exceptions. reflexivity. Defined.

(** C2 as stated fails: on the base class, a policy with a resource
    policy makes [validate_policy] call [get_root_resource], whose
    [NotImplementedError] escapes. *)
Lemma C2_counterexample :
  validate_policy base
    (PyDict [(KStr "resources",
              PyDict [(KStr "repository", PyDict [(KStr "*", allow_all)])])])
  = Raise NotImplementedError.
Proof. reflexivity. Qed.

(** Outside the hypothesis of the theorem above: a resource policy that
    is not a dict has no [items] method. *)
Example non_dict_resource_policy :
  validate_policy ExampleToken
    (PyDict [(KStr "resources", PyDict [(KStr "user", PyInt 5)])])
  = Raise (AttributeError "'int' object has no attribute 'items'").
Proof. reflexivity. Qed.

(** ** WebAPIError.with_overrides *)


(** C7: [with_overrides] returns a new [WebAPIError] whose [code] and
    [http_status] are the receiver's, whose [msg] is the given one when it
    is truthy and the receiver's otherwise, and whose [headers] are the
    given ones when not [None] and the receiver's otherwise; the receiver
    and every other instance keep their fields; [with_message(msg)]
    returns what [with_overrides(msg)] returns. *)
Theorem C7_with_overrides
    (st : store) (self : nat) (this : obj) (msg headers : pyval) :
  st !! self = Some this →
  ∃ st' new that,
    with_overrides st self msg headers = Some (st', new)
    ∧ st !! new = None
    ∧ st' !! new = Some that
    ∧ code that = code this
    ∧ http_status that = http_status this
    ∧ WebAPIError.msg that
      = (if truthy msg then msg else WebAPIError.msg this)
    ∧ WebAPIError.headers that
      = (match headers with
         | PyNone => WebAPIError.headers this
         | _ => headers
         end)
    ∧ st' !! self = Some this
    ∧ (∀ other o, st !! other = Some o → st' !! other = Some o)
    ∧ with_message st self msg = with_overrides st self msg PyNone.
Proof.
  intros Hself. unfold with_message, with_overrides, __init__.
  rewrite Hself. eexists _, _, _. split; [reflexivity|].
  split; [by apply lookup_ge_None_2|].
  split; [by rewrite lookup_app_r, Nat.sub_diag|].
  cbn [code http_status WebAPIError.msg WebAPIError.headers default].
  repeat split.
  - by destruct headers.
  - by apply lookup_app_l_Some.
  - intros other o Hother. by apply lookup_app_l_Some.
Qed.

Lemma C7_with_overrides_witness :
  ∃ st' new that,
    with_overrides standard_errors 1 (PyStr "") (PyDict []) = Some (st', new)
    ∧ standard_errors !! new = None
    ∧ st' !! new = Some that
    ∧ code that = 103%Z
    ∧ http_status that = 401%Z
    ∧ WebAPIError.msg that = PyStr "You are not logged in"
    ∧ WebAPIError.headers that = PyDict []
    ∧ st' !! 1 = Some (Obj 103 (PyStr "You are not logged in") 401
                         (PyFunc "_get_auth_headers"))
    ∧ (∀ other o,
         standard_errors !! other = Some o → st' !! other = Some o)
    ∧ with_message standard_errors 1 (PyStr "")
      = with_overrides standard_errors 1 (PyStr "") PyNone.
Proof.
  apply (C7_with_overrides standard_errors 1
           (Obj 103 (PyStr "You are not logged in") 401
              (PyFunc "_get_auth_headers"))
           (PyStr "") (PyDict [])).
  reflexivity.
Defined.

(** ** Token predicates *)


(** C8: for every token and every user, [is_accessible_by],
    [is_mutable_by] and [is_deletable_by] return the same value, which is
    true exactly when the user is a superuser or equals the token's
    user. *)
Theorem C8_permission_predicates_agree
    {User : Type} (is_superuser : User → bool) (user_eq : User → User → bool)
    (self : token User) (u : User) :
  is_mutable_by is_superuser user_eq self u
  = is_accessible_by is_superuser user_eq self u
  ∧ is_deletable_by is_superuser user_eq self u
    = is_accessible_by is_superuser user_eq self u
  ∧ (is_accessible_by is_superuser user_eq self u = true
     ↔ is_superuser u = true ∨ user_eq (user self) u = true).
Proof.
  repeat split.
  - unfold is_accessible_by. by intros ?%orb_true_iff.
  - unfold is_accessible_by. by intros ?%orb_true_iff.
Qed.

(** C9: [is_expired] returns [False] when [expires] is [None]; otherwise
    it returns [True] exactly when the current time is at or after
    [expires], so a token is expired at the expiration instant itself. *)
Theorem C9_is_expired {User : Type} (now : Z) (self : token User) :
  (expires self = None → is_expired now self = false)
  ∧ (∀ e, expires self = Some e →
          (is_expired now self = true ↔ (now >= e)%Z)
          ∧ is_expired e self = true).
Proof.
  unfold is_expired. split.
  - by intros ->.
  - intros e ->. split.
    + rewrite bool_decide_eq_true. lia.
    + by apply bool_decide_eq_true.
Qed.

Lemma C9_is_expired_witness :
  is_expired 1700000000000000 (Token tt None (Some 3%Z)) = false
  ∧ is_expired 1699999999999999 (Token tt (Some 1700000000000000%Z) None)
    = false
  ∧ is_expired 1700000000000000 (Token tt (Some 1700000000000000%Z) None)
    = true.
Proof.
  split; [|split].
  - apply (C9_is_expired 1700000000000000 (Token tt None (Some 3%Z))).
    reflexivity.
  - destruct (C9_is_expired 1699999999999999
                (Token tt (Some 1700000000000000%Z) None)) as [_ Hsome].
    destruct (Hsome 1700000000000000%Z eq_refl) as [Hiff _].
    apply not_true_is_false. rewrite Hiff. cbn. lia.
  - apply (C9_is_expired 0 (Token tt (Some 1700000000000000%Z) None)).
    reflexivity.
Defined.

(** C10: when the superclass saves the token, [save] ends by sending the
    [webapi_token_updated] signal, after everything the superclass did,
    if the token had a primary key beforehand; on the first save of a new
    token (no primary key beforehand) it sends nothing itself. *)
Theorem C10_save_signal {User DB : Type}
    (Model_save : world → token User → result (world * token User))
    (w w1 : world (DB := DB)) (self self1 : token User) :
  Model_save w self = Return (w1, self1) →
  ∃ w' emitted,
    save Model_save w self = Return (w', self1)
    ∧ db w' = db w1
    ∧ sent w' = sent w1 ++ emitted
    ∧ (SignalSent "webapi_token_updated" self1 ∈ emitted ↔ pk self ≠ None)
    ∧ (pk self = None → emitted = []).
Proof.
  intros Hsuper. unfold save. rewrite Hsuper.
  cbn [mbind result_bind fst snd].
  destruct (pk self) as [k|]; cbn [negb].
  - eexists _, [_]. repeat split; try done.
    intros _. apply list_elem_of_here.
  - exists w1, []. rewrite app_nil_r. repeat split; try done.
    intros Hin. by apply not_elem_of_nil in Hin.
Qed.

Lemma C10_save_signal_witness :
  ∃ w' emitted,
    save counter_Model_save (World 8%Z []) (Token tt None (Some 3%Z))
    = Return (w', Token tt None (Some 3%Z))
    ∧ db w' = 8%Z
    ∧ sent w'
      = [SignalSent "post_save" (Token tt None (Some 3%Z))] ++ emitted
    ∧ (SignalSent "webapi_token_updated" (Token tt None (Some 3%Z))
         ∈ emitted
       ↔ Some 3%Z ≠ None)
    ∧ (Some 3%Z = None → emitted = []).
Proof.
  apply (C10_save_signal counter_Model_save (World 8%Z [])
           (World 8%Z [SignalSent "post_save" (Token tt None (Some 3%Z))])
           (Token tt None (Some 3%Z)) (Token tt None (Some 3%Z))).
  reflexivity.
Defined.

(** * Further properties of the policy validator *)

Section MoreLoops.

Context {A : Type} (body : A → result unit).

Lemma for_each_Return l :
  for_each body l = Return tt ↔ Forall (fun y => body y = Return tt) l.
Proof.
  induction l as [|x l IH]; simpl.
  - split; [constructor | done].
  - destruct (body x) as [[]|e] eqn:Hx; simpl.
    + rewrite IH. split; [by constructor | by inversion 1].
    + split; [done | inversion 1; congruence].
Qed.

End MoreLoops.

Lemma validate_policy_section_Return parent_section section_name
    full_section_name section :
  dict_get section_name parent_section = Some section →
  _validate_policy_section parent_section section_name full_section_name
    = Return tt
  ↔ section_shape_ok section = true.
Proof.
  intros Hget. split.
  - intros Hret. destruct (section_shape_ok section) eqn:Hshape; [done|].
    destruct (validate_policy_section_bad _ _ full_section_name _ Hget
                Hshape) as [msg Hmsg].
    congruence.
  - by apply validate_policy_section_ok.
Qed.

Lemma star_check_Return res :
  star_check res = Return tt
  ↔ ∀ star, dict_get (KStr "*") res = Some star →
            section_shape_ok star = true.
Proof.
  unfold dict_contains.
  destruct (dict_get (KStr "*") res) as [star|] eqn:Hget.
  - rewrite (validate_policy_section_Return _ _ _ _ Hget).
    split; [by intros ? ? [= <-] | auto].
  - split; [done | auto].
Qed.

Lemma validate_subsection_Return policy_id sec sub :
  dict_wf sec → sub ∈ sec →
  validate_subsection policy_id sec sub = Return tt
  ↔ isinstance_str sub.1 = true ∧ section_shape_ok sub.2 = true.
Proof.
  destruct sub as [name subsection]. intros Hwf Hin.
  unfold validate_subsection. cbn [fst snd].
  destruct (isinstance_str name); cbn [negb]; [|by split; [|intros []]].
  rewrite (validate_policy_section_Return sec name _ subsection)
    by by apply dict_get_wf.
  split; [done | by intros []].
Qed.

Lemma validate_resource_policy_ok valid_policy_ids item :
  (∀ sec, item.2 = PyDict sec → dict_wf sec) →
  validate_resource_policy valid_policy_ids item = Return tt
  ↔ resource_policy_ok valid_policy_ids item.
Proof.
  destruct item as [pid section]. cbn [snd]. intros Hwf.
  unfold resource_policy_ok, validate_resource_policy. cbn [fst snd].
  destruct (decide (pid ∈ valid_policy_ids)) as [Hin|Hnotin].
  2: { rewrite bool_decide_eq_false_2 by done. cbn [negb].
       split; [done | by intros []]. }
  rewrite bool_decide_eq_true_2 by done. cbn [negb].
  destruct section as [| | | | | |sec|]; cbn [items mbind result_bind];
    try (split; [done | by intros (_ & ? & ? & _)]).
  rewrite for_each_Return, Forall_forall. split.
  - intros Hall. split; [done|]. exists sec. split; [done|].
    intros sub Hsub. apply (validate_subsection_Return pid sec); auto.
  - intros (_ & sec' & [= <-] & Hall) sub Hsub.
    apply (validate_subsection_Return pid sec); auto.
Qed.

(** When [validate_policy] returns, read off the code path by path. *)
Lemma validate_policy_Return cls pol :
  validate_policy cls (PyDict pol) = Return tt
  ↔ pol = []
    ∨ ∃ res,
        dict_get (KStr "resources") pol = Some (PyDict res)
        ∧ res ≠ []
        ∧ star_check res = Return tt
        ∧ (resource_policies_of res = []
           ∨ ∃ root,
               get_root_resource cls = Return root
               ∧ for_each (validate_resource_policy (valid_ids root))
                   (resource_policies_of res) = Return tt).
Proof.
  destruct pol as [|entry pol']; [split; [by left | done]|].
  set (pol := entry :: pol').
  split.
  - intros Hret. right.
    destruct (dict_get (KStr "resources") pol) as [rs|] eqn:Hres.
    2: { unfold validate_policy, dict_contains in Hret.
         by rewrite Hres in Hret. }
    destruct rs as [| | | | | |res|];
      try (unfold validate_policy, dict_contains in Hret;
           by rewrite Hres in Hret).
    destruct res as [|rentry res'].
    { unfold validate_policy, dict_contains in Hret.
      by rewrite Hres in Hret. }
    set (res := rentry :: res') in *. exists res.
    rewrite (validate_policy_resources cls pol res Hres) in Hret by done.
    destruct (star_check res) as [[]|e]; [|done].
    cbn [mbind result_bind] in Hret. repeat split; [done|].
    destruct (resource_policies_of res) as [|item rp]; [by left|].
    right. cbn [truthy] in Hret.
    destruct (get_root_resource cls) as [root|e]; [|done].
    by exists root.
  - intros [?|(res & Hres & Hne & Hstar & Hrp)]; [done|].
    rewrite (validate_policy_resources cls pol res Hres Hne), Hstar.
    cbn [mbind result_bind].
    destruct Hrp as [->|(root & -> & Hloop)]; [done|].
    cbn [mbind result_bind]. rewrite Hloop.
    by destruct (resource_policies_of res).
Qed.

Lemma dict_get_Some_elem_of k v (d : pydict) :
  dict_get k d = Some v → (k, v) ∈ d.
Proof.
  induction d as [|[k' v'] d IH]; simpl; [done|].
  destruct (decide (k = k')) as [->|Hne].
  - intros [= ->]. apply list_elem_of_here.
  - intros H. apply list_elem_of_further; auto.
Qed.

Lemma dict_get_Permutation k (d d' : pydict) :
  dict_wf d → d ≡ₚ d' → dict_get k d = dict_get k d'.
Proof.
  intros Hwf Hperm.
  assert (dict_wf d') as Hwf'.
  { unfold dict_wf in *. by rewrite <- Hperm. }
  destruct (dict_get k d) as [v|] eqn:Hd.
  - symmetry. apply dict_get_wf; [done|]. rewrite <- Hperm.
    by apply dict_get_Some_elem_of.
  - destruct (dict_get k d') as [v'|] eqn:Hd'; [|done].
    apply dict_get_Some_elem_of in Hd'. rewrite <- Hperm in Hd'.
    apply (dict_get_wf _ _ _ Hwf) in Hd'. congruence.
Qed.

Lemma resource_policies_of_elem_of res item :
  item ∈ resource_policies_of res ↔ item ∈ res ∧ item.1 ≠ KStr "*".
Proof.
  unfold resource_policies_of. rewrite list_elem_of_filter. tauto.
Qed.

(** The policies [validate_policy] accepts, in terms of the document. *)
Lemma validate_policy_accepted cls pol res :
  dict_get (KStr "resources") pol = Some (PyDict res) →
  resource_policies_wf res →
  validate_policy cls (PyDict pol) = Return tt
  ↔ res ≠ []
    ∧ (∀ star, dict_get (KStr "*") res = Some star →
               section_shape_ok star = true)
    ∧ (resource_policies_of res = []
       ∨ ∃ root,
           get_root_resource cls = Return root
           ∧ ∀ item, item ∈ res → item.1 ≠ KStr "*" →
                     resource_policy_ok (valid_ids root) item).
Proof.
  intros Hres Hwf. rewrite validate_policy_Return.
  assert (∀ root,
            for_each (validate_resource_policy (valid_ids root))
              (resource_policies_of res) = Return tt
            ↔ ∀ item, item ∈ res → item.1 ≠ KStr "*" →
                      resource_policy_ok (valid_ids root) item) as Hloop.
  { intros root. rewrite for_each_Return, Forall_forall.
    split.
    - intros Hall item Hin Hne.
      apply validate_resource_policy_ok.
      + intros sec Hsec. destruct item as [k v]. simpl in Hsec. subst v.
        by apply (Hwf k).
      + apply Hall. by apply resource_policies_of_elem_of.
    - intros Hall item [Hin Hne]%resource_policies_of_elem_of.
      apply validate_resource_policy_ok; [|by apply Hall].
      intros sec Hsec. destruct item as [k v]. simpl in Hsec. subst v.
      by apply (Hwf k). }
  split.
  - intros [->|(res' & Hres' & Hne & Hstar & Hrp)]; [done|].
    rewrite Hres in Hres'. injection Hres' as <-.
    split; [done|]. split; [by apply star_check_Return|].
    destruct Hrp as [?|(root & Hroot & Hrun)]; [by left|].
    right. exists root. split; [done|]. by apply Hloop.
  - intros (Hne & Hstar & Hrp). right. exists res.
    split; [done|]. split; [done|].
    split; [by apply star_check_Return|].
    destruct Hrp as [?|(root & Hroot & Hall)]; [by left|].
    right. exists root. split; [done|]. by apply Hloop.
Qed.

(** X1: a non-empty policy whose [resources] value is a dict is accepted
    exactly when that dict is not empty, its ['*'] entry (if any) is well
    shaped, and either there is no other key or [get_root_resource]
    returns a root and every other entry has a valid policy ID as key and
    a dict of string-named, well-shaped subsections as value. *)
Theorem X1_validate_policy_accepts_iff
    (cls : token_class) (pol res : pydict) :
  dict_get (KStr "resources") pol = Some (PyDict res) →
  resource_policies_wf res →
  validate_policy cls (PyDict pol) = Return tt
  ↔ res ≠ []
    ∧ (∀ star, dict_get (KStr "*") res = Some star →
               section_shape_ok star = true)
    ∧ (resource_policies_of res = []
       ∨ ∃ root,
           get_root_resource cls = Return root
           ∧ ∀ item, item ∈ res → item.1 ≠ KStr "*" →
                     resource_policy_ok (valid_ids root) item).
Proof. apply validate_policy_accepted. Qed.

Lemma X1_validate_policy_accepts_iff_witness :
  resource_policy_ok (valid_ids example_root)
    (KStr "repository", PyDict [(KStr "*", allow_all); (KStr "42", allow_all)]).
Proof.
  pose proof (X1_validate_policy_accepts_iff ExampleToken
    [(KStr "version", PyInt 1);
     (KStr "resources",
      PyDict [(KStr "*", allow_all);
              (KStr "repository",
               PyDict [(KStr "*", allow_all); (KStr "42", allow_all)])])]
    [(KStr "*", allow_all);
     (KStr "repository",
      PyDict [(KStr "*", allow_all); (KStr "42", allow_all)])]) as Hiff.
  destruct Hiff as [Hacc _].
  - reflexivity.
  - intros k sec Hin. unfold dict_wf, allow_all in Hin |- *.
    apply elem_of_cons in Hin as [[= -> ->]|Hin];
      [by apply (bool_decide_unpack _)|].
    apply elem_of_cons in Hin as [[= -> ->]|Hin];
      [by apply (bool_decide_unpack _)|].
    by apply not_elem_of_nil in Hin.
  - destruct Hacc as (_ & _ & [Hnone|(root & [= <-] & Hall)]);
      [reflexivity | discriminate Hnone |].
    apply Hall; [|done].
    apply list_elem_of_further, list_elem_of_here.
Defined.

(** X2: whether a policy is accepted does not depend on the order of the
    entries of its [resources] section (which error a rejected policy
    gets does depend on it). *)
Theorem X2_acceptance_ignores_entry_order
    (cls : token_class) (pol pol' res res' : pydict) :
  dict_get (KStr "resources") pol = Some (PyDict res) →
  dict_get (KStr "resources") pol' = Some (PyDict res') →
  res ≡ₚ res' →
  dict_wf res →
  resource_policies_wf res →
  validate_policy cls (PyDict pol) = Return tt
  ↔ validate_policy cls (PyDict pol') = Return tt.
Proof.
  intros Hres Hres' Hperm Hwf Hsecs.
  assert (resource_policies_wf res') as Hsecs'.
  { intros k sec Hin. apply (Hsecs k). by rewrite Hperm. }
  rewrite (validate_policy_accepted cls pol res Hres Hsecs).
  rewrite (validate_policy_accepted cls pol' res' Hres' Hsecs').
  assert (res = [] ↔ res' = []) as Hnil.
  { split; intros ->.
    - by apply Permutation_nil_l in Hperm.
    - by apply Permutation_nil_r in Hperm. }
  assert (resource_policies_of res = [] ↔ resource_policies_of res' = [])
    as Hrp.
  { assert (resource_policies_of res ≡ₚ resource_policies_of res') as Hp.
    { unfold resource_policies_of. by rewrite Hperm. }
    split; intros Heq; rewrite Heq in Hp.
    - by apply Permutation_nil_l in Hp.
    - by apply Permutation_nil_r in Hp. }
  assert (∀ star, dict_get (KStr "*") res = Some star
                  ↔ dict_get (KStr "*") res' = Some star) as Hstar.
  { intros star. by rewrite (dict_get_Permutation _ res res' Hwf Hperm). }
  assert (∀ P : pykey * pyval → Prop,
            (∀ item, item ∈ res → item.1 ≠ KStr "*" → P item)
            ↔ (∀ item, item ∈ res' → item.1 ≠ KStr "*" → P item)) as Hall.
  { intros P. split; intros H item Hin; apply H.
    - by rewrite Hperm.
    - by rewrite <- Hperm. }
  split; intros (Hne & Hok & Hrest); (split; [tauto|]);
    (split; [intros star ?; apply Hok; by apply Hstar|]);
    (destruct Hrest as [?|(root & Hroot & Hitems)];
     [left; tauto | right; exists root; split; [done|]; by apply Hall]).
Qed.

Lemma X2_acceptance_ignores_entry_order_witness :
  validate_policy ExampleToken
    (PyDict [(KStr "resources",
              PyDict [(KStr "*", allow_all);
                      (KStr "user", PyDict [(KStr "*", allow_all)])])])
  = Return tt
  ↔ validate_policy ExampleToken
      (PyDict [(KStr "resources",
                PyDict [(KStr "user", PyDict [(KStr "*", allow_all)]);
                        (KStr "*", allow_all)])])
    = Return tt.
Proof.
  apply (X2_acceptance_ignores_entry_order ExampleToken _ _
           [(KStr "*", allow_all);
            (KStr "user", PyDict [(KStr "*", allow_all)])]
           [(KStr "user", PyDict [(KStr "*", allow_all)]);
            (KStr "*", allow_all)]).
  - reflexivity.
  - reflexivity.
  - apply Permutation_swap.
  - by apply (bool_decide_unpack _).
  - intros k sec Hin. unfold dict_wf, allow_all in Hin |- *.
    apply elem_of_cons in Hin as [[= -> ->]|Hin];
      [by apply (bool_decide_unpack _)|].
    apply elem_of_cons in Hin as [[= -> ->]|Hin];
      [by apply (bool_decide_unpack _)|].
    by apply not_elem_of_nil in Hin.
Defined.

(** X3: of a non-empty policy, [validate_policy] reads the [resources]
    key only: two non-empty policies with the same value (or the same
    absence) under [resources] get the same result, whatever else they
    hold. *)
Theorem X3_only_resources_is_read
    (cls : token_class) (pol pol' : pydict) :
  pol ≠ [] → pol' ≠ [] →
  dict_get (KStr "resources") pol = dict_get (KStr "resources") pol' →
  validate_policy cls (PyDict pol) = validate_policy cls (PyDict pol').
Proof.
  intros Hne Hne' Heq. unfold validate_policy, dict_contains.
  destruct pol; [done|]. destruct pol'; [done|].
  cbn [truthy negb]. by rewrite Heq.
Qed.

Lemma X3_only_resources_is_read_witness :
  validate_policy ExampleToken
    (PyDict [(KStr "resources", PyDict [(KStr "bogus", allow_all)])])
  = validate_policy ExampleToken
      (PyDict [(KStr "version", PyInt 2);
               (KStr "resources", PyDict [(KStr "bogus", allow_all)]);
               (KStr "readonly", PyBool true)]).
Proof.
  apply X3_only_resources_is_read; [discriminate | discriminate | reflexivity].
Defined.

(** X4: the base class, whose [get_root_resource] is not implemented,
    accepts exactly the empty policy and the policies whose [resources]
    section holds the key ['*'] alone, with a well-shaped value. *)
Theorem X4_base_class_accepts_star_only (pol : pydict) :
  validate_policy base (PyDict pol) = Return tt
  ↔ pol = []
    ∨ ∃ res star,
        dict_get (KStr "resources") pol = Some (PyDict res)
        ∧ Forall (fun item => item.1 = KStr "*") res
        ∧ dict_get (KStr "*") res = Some star
        ∧ section_shape_ok star = true.
Proof.
  rewrite validate_policy_Return.
  assert (∀ res : pydict,
            resource_policies_of res = []
            ↔ Forall (fun item => item.1 = KStr "*") res) as Honly.
  { intros res. unfold resource_policies_of.
    induction res as [|item res IH]; [by split|].
    rewrite filter_cons, Forall_cons.
    destruct (decide (item.1 ≠ KStr "*")) as [Hne|Heq].
    - split; [done | by intros [? _]].
    - apply dec_stable in Heq. rewrite IH. tauto. }
  split.
  - intros [?|(res & Hres & Hne & Hstar & Hrp)]; [by left|]. right.
    destruct Hrp as [Hrp|(root & Hroot & _)]; [|discriminate Hroot].
    apply Honly in Hrp.
    destruct res as [|[k star] res']; [done|].
    apply Forall_cons in Hrp as Hk. destruct Hk as [Hk _]. simpl in Hk.
    subst k. exists ((KStr "*", star) :: res'), star.
    repeat split; [done..|].
    apply (proj1 (star_check_Return ((KStr "*", star) :: res')) Hstar star).
    reflexivity.
  - intros [?|(res & star & Hres & Hrp & Hget & Hshape)]; [by left|].
    right. exists res. split; [done|].
    split; [intros ->; discriminate Hget|].
    split; [|left; by apply Honly].
    apply star_check_Return. intros star' Hget'. congruence.
Qed.

(** X5: a resource policy that is reached, has a valid policy ID as key
    and is not a dict makes [validate_policy] raise [AttributeError]
    (from [section.items()]), not [ValidationError]. *)
Theorem X5_non_dict_resource_policy
    (cls : token_class) (pol res pre post : pydict) (root : resource)
    (pid : pykey) (section : pyval) :
  dict_get (KStr "resources") pol = Some (PyDict res) →
  (∀ star, dict_get (KStr "*") res = Some star →
           section_shape_ok star = true) →
  get_root_resource cls = Return root →
  resource_policies_of res = pre ++ (pid, section) :: post →
  Forall (fun item =>
            validate_resource_policy (valid_ids root) item = Return tt) pre →
  pid ∈ valid_ids root →
  isinstance_dict section = false →
  validate_policy cls (PyDict pol)
  = Raise (AttributeError
      (sq +:+ type_name section +:+ sq +:+ " object has no attribute "
       +:+ sq +:+ "items" +:+ sq)).
Proof.
  intros Hres Hstar Hroot Hsplit Hpre Hvalid Hnd.
  rewrite (validate_policy_reaches_resource_policy cls pol res Hres root
             pre post pid section Hstar Hroot Hsplit Hpre).
  unfold validate_resource_policy.
  rewrite bool_decide_eq_true_2 by done.
  by destruct section.
Qed.

Lemma X5_non_dict_resource_policy_witness :
  validate_policy ExampleToken
    (PyDict [(KStr "resources",
              PyDict [(KStr "*", allow_all); (KStr "user", PyList [])])])
  = Raise (AttributeError
      (sq +:+ "list" +:+ sq +:+ " object has no attribute "
       +:+ sq +:+ "items" +:+ sq)).
Proof.
  apply (X5_non_dict_resource_policy ExampleToken _
           [(KStr "*", allow_all); (KStr "user", PyList [])] [] []
           example_root (KStr "user") (PyList [])).
  - reflexivity.
  - intros star [= <-]. reflexivity.
  - reflexivity.
  - reflexivity.
  - constructor.
  - by apply (bool_decide_unpack _).
  - reflexivity.
Defined.



(** * Further properties of the set of valid policy IDs *)

(** X7: a call of [_get_valid_policy_ids] with a set [result] passed in
    only adds to it: it returns [result] together with what a call
    without [result] returns. *)
Theorem X7_get_valid_policy_ids_accumulates
    (root : resource) (result : gset pykey) :
  _get_valid_policy_ids root (Some result) = result ∪ valid_ids root.
Proof.
  apply set_eq. intros k.
  rewrite elem_of_union.
  rewrite (get_valid_policy_ids_collects k root (Some result)).
  rewrite (get_valid_policy_ids_collects k root None). simpl.
  rewrite elem_of_empty. tauto.
Qed.

Lemma valid_ids_children k p l i :
  k ∈ valid_ids (Resource p l i)
  ↔ p = Some k ∨ ∃ child, child ∈ l ++ i ∧ k ∈ valid_ids child.
Proof.
  rewrite valid_ids_reachable. unfold names_reachable. split.
  - intros (r' & Hr & Hid).
    inversion Hr as [|? c ? Hin Hr'|? c ? Hin Hr']; subst; simpl in *.
    + by left.
    + right. exists c. rewrite elem_of_app, valid_ids_reachable.
      split; [by left | by exists r'].
    + right. exists c. rewrite elem_of_app, valid_ids_reachable.
      split; [by right | by exists r'].
  - intros [Hp|(c & Hin & (r' & Hr & Hid)%valid_ids_reachable)].
    + exists (Resource p l i). split; [constructor | done].
    + exists r'. split; [|done].
      apply elem_of_app in Hin as [Hin|Hin].
      * by apply reachable_list_child with c.
      * by apply reachable_item_child with c.
Qed.

(** X8: the valid policy IDs of a resource are its own [policy_id] (if
    it has one) and those of its children; so they depend neither on the
    order of the children nor on which of the two child lists a child is
    in. *)
Theorem X8_valid_ids_ignore_child_order
    (p : option pykey) (l i l' i' : list resource) :
  l ++ i ≡ₚ l' ++ i' →
  valid_ids (Resource p l i) = valid_ids (Resource p l' i')
  ∧ ∀ k, k ∈ valid_ids (Resource p l i)
         ↔ p = Some k ∨ ∃ child, child ∈ l ++ i ∧ k ∈ valid_ids child.
Proof.
  intros Hperm. split; [|intros k; apply valid_ids_children].
  apply set_eq. intros k. rewrite !valid_ids_children.
  by setoid_rewrite Hperm.
Qed.

Lemma X8_valid_ids_ignore_child_order_witness :
  valid_ids
    (Resource None
       [Resource (Some (KStr "repository")) [] []; Resource None [] []]
       [Resource (Some (KStr "user")) [] []])
  = valid_ids
      (Resource None
         [Resource None [] []]
         [Resource (Some (KStr "repository")) [] [];
          Resource (Some (KStr "user")) [] []]).
Proof.
  apply (X8_valid_ids_ignore_child_order None
           [Resource (Some (KStr "repository")) [] []; Resource None [] []]
           [Resource (Some (KStr "user")) [] []]
           [Resource None [] []]
           [Resource (Some (KStr "repository")) [] [];
            Resource (Some (KStr "user")) [] []]).
  simpl. apply Permutation_swap.
Defined.

(** * Further properties of tokens *)

(** X9: expiration is monotone in time: a token that is expired at one
    instant is expired at every later one. *)
Theorem X9_is_expired_monotone
    {User : Type} (now later : Z) (self : token User) :
  (now ≤ later)%Z →
  is_expired now self = true →
  is_expired later self = true.
Proof.
  unfold is_expired. intros Hle.
  destruct (expires self) as [e|]; [|done].
  rewrite !bool_decide_eq_true. lia.
Qed.

Lemma X9_is_expired_monotone_witness :
  is_expired 1700000000000001 (Token tt (Some 1700000000000000%Z) None)
  = true.
Proof.
  apply (X9_is_expired_monotone 1700000000000000 1700000000000001
           (Token tt (Some 1700000000000000%Z) None)).
  - lia.
  - reflexivity.
Defined.

(** X10: saving a new token and then saving it again: when the
    superclass gives the token its primary key on the first save, the
    first [save] leaves the state exactly as the superclass left it, and
    the second one ends with the [webapi_token_updated] signal for the
    saved token. *)
Theorem X10_create_then_update
    {User DB : Type}
    (Model_save : world → token User → result (world * token User))
    (w w1 w2 : world (DB := DB)) (self self1 self2 : token User) :
  pk self = None →
  Model_save w self = Return (w1, self1) →
  pk self1 ≠ None →
  Model_save w1 self1 = Return (w2, self2) →
  save Model_save w self = Return (w1, self1)
  ∧ save Model_save w1 self1
    = Return ({| db := db w2;
                 sent := sent w2
                         ++ [SignalSent "webapi_token_updated" self2] |},
              self2).
Proof.
  intros Hnew Hfirst Hpk Hsecond. unfold save.
  rewrite Hnew, Hfirst, Hsecond. cbn [mbind result_bind negb fst snd].
  split; [done|]. by destruct (pk self1).
Qed.

Lemma X10_create_then_update_witness :
  save counter_Model_save (World 8%Z []) (Token tt None None)
  = Return (World 9%Z [SignalSent "post_save" (Token tt None (Some 8%Z))],
            Token tt None (Some 8%Z))
  ∧ save counter_Model_save
      (World 9%Z [SignalSent "post_save" (Token tt None (Some 8%Z))])
      (Token tt None (Some 8%Z))
    = Return
        ({| db := 9%Z;
            sent := [SignalSent "post_save" (Token tt None (Some 8%Z));
                     SignalSent "post_save" (Token tt None (Some 8%Z))]
                    ++ [SignalSent "webapi_token_updated"
                          (Token tt None (Some 8%Z))] |},
         Token tt None (Some 8%Z)).
Proof.
  apply (X10_create_then_update counter_Model_save
           (World 8%Z [])
           (World 9%Z [SignalSent "post_save" (Token tt None (Some 8%Z))])
           (World 9%Z [SignalSent "post_save" (Token tt None (Some 8%Z));
                       SignalSent "post_save" (Token tt None (Some 8%Z))])
           (Token tt None None) (Token tt None (Some 8%Z))
           (Token tt None (Some 8%Z))).
  - reflexivity.
  - reflexivity.
  - discriminate.
  - reflexivity.
Defined.

(** * Further properties of WebAPIError *)

Lemma with_overrides_allocated st self this msg headers :
  st !! self = Some this →
  with_overrides st self msg headers
  = Some (st ++ [ {| code := code this;
                     msg := if truthy msg then msg else WebAPIError.msg this;
                     http_status := http_status this;
                     headers := if is_None headers
                                then WebAPIError.headers this
                                else headers |} ],
          length st).
Proof. intros Hself. unfold with_overrides, __init__. by rewrite Hself. Qed.

Lemma store_lookup_new (st : store) (o : obj) :
  (st ++ [o]) !! length st = Some o.
Proof. by rewrite lookup_app_r, Nat.sub_diag. Qed.

(** X11: two overrides in a row give an error with the fields of a
    single override: the second message if it is truthy and else the
    first, the second headers if they are not [None] and else the
    first. *)
Theorem X11_with_overrides_twice
    (st : store) (self : nat) (this : obj) (msg1 headers1 msg2 headers2 : pyval) :
  st !! self = Some this →
  ∃ st1 new1 st2 new2 st' new' that,
    with_overrides st self msg1 headers1 = Some (st1, new1)
    ∧ with_overrides st1 new1 msg2 headers2 = Some (st2, new2)
    ∧ with_overrides st self
        (if truthy msg2 then msg2 else msg1)
        (if is_None headers2 then headers1 else headers2)
      = Some (st', new')
    ∧ st2 !! new2 = Some that
    ∧ st' !! new' = Some that.
Proof.
  intros Hself.
  set (o1 := {| code := code this;
                msg := if truthy msg1 then msg1 else WebAPIError.msg this;
                http_status := http_status this;
                headers := if is_None headers1
                           then WebAPIError.headers this
                           else headers1 |}).
  set (o2 := {| code := code o1;
                msg := if truthy msg2 then msg2 else WebAPIError.msg o1;
                http_status := http_status o1;
                headers := if is_None headers2
                           then WebAPIError.headers o1
                           else headers2 |}).
  exists (st ++ [o1]), (length st), ((st ++ [o1]) ++ [o2]),
    (length (st ++ [o1])), (st ++ [o2]), (length st), o2.
  split; [by apply with_overrides_allocated|].
  split; [apply with_overrides_allocated, store_lookup_new|].
  split; [|split; apply store_lookup_new].
  rewrite (with_overrides_allocated st self this _ _ Hself).
  unfold o2, o1.
  cbn [code http_status WebAPIError.msg WebAPIError.headers].
  by destruct (truthy msg2) eqn:Hmsg, (is_None headers2) eqn:Hh;
    rewrite ?Hmsg, ?Hh.
Qed.

Lemma X11_with_overrides_twice_witness :
  ∃ st1 new1 st2 new2 st' new' that,
    with_overrides standard_errors 2 (PyStr "Not installed") PyNone
    = Some (st1, new1)
    ∧ with_overrides st1 new1 PyNone (PyDict [(KStr "Retry-After", PyInt 5)])
      = Some (st2, new2)
    ∧ with_overrides standard_errors 2
        (if truthy PyNone then PyNone else PyStr "Not installed")
        (if is_None (PyDict [(KStr "Retry-After", PyInt 5)]) then PyNone
         else PyDict [(KStr "Retry-After", PyInt 5)])
      = Some (st', new')
    ∧ st2 !! new2 = Some that
    ∧ st' !! new' = Some that.
Proof.
  apply (X11_with_overrides_twice standard_errors 2
           (Obj 107 (PyStr "There was a problem enabling the extension") 500
              (PyDict []))).
  reflexivity.
Defined.

(** X12: what [with_overrides] cannot do.  Called without a truthy
    message and without headers it yields a copy of the receiver; a
    truthy message is never replaced by a falsy one (so not by the empty
    string), and headers that are not [None] never become [None]. *)
Theorem X12_with_overrides_keeps
    (st : store) (self : nat) (this : obj) (msg headers : pyval) :
  st !! self = Some this →
  ∃ st' new that,
    with_overrides st self msg headers = Some (st', new)
    ∧ st' !! new = Some that
    ∧ (truthy msg = false → is_None headers = true → that = this)
    ∧ (truthy (WebAPIError.msg this) = true →
       truthy (WebAPIError.msg that) = true)
    ∧ (is_None (WebAPIError.headers this) = false →
       is_None (WebAPIError.headers that) = false).
Proof.
  intros Hself.
  rewrite (with_overrides_allocated st self this msg headers Hself).
  eexists _, _, _. split; [reflexivity|].
  split; [apply store_lookup_new|].
  cbn [WebAPIError.msg WebAPIError.headers]. repeat split.
  - intros -> ->. by destruct this.
  - by destruct (truthy msg) eqn:Hmsg.
  - by destruct (is_None headers) eqn:Hh.
Qed.

Lemma X12_with_overrides_keeps_witness :
  ∃ st' new that,
    with_overrides standard_errors 0 (PyStr "") PyNone = Some (st', new)
    ∧ st' !! new = Some that
    ∧ (truthy (PyStr "") = false → is_None PyNone = true →
       that = Obj 0 (PyStr "If you see this, yell at the developers") 400
                (PyDict []))
    ∧ (truthy (PyStr "If you see this, yell at the developers") = true →
       truthy (WebAPIError.msg that) = true)
    ∧ (is_None (PyDict []) = false →
       is_None (WebAPIError.headers that) = false).
Proof.
  apply (X12_with_overrides_keeps standard_errors 0
           (Obj 0 (PyStr "If you see this, yell at the developers") 400
              (PyDict []))).
  reflexivity.
Defined.

(** * The authentication headers *)

Section AuthHeaderFacts.

Context {Request : Type} (request : Request).

Implicit Types (backends : list (auth_backend (Request := Request))).

Lemma add_backends_schemes backends headers schemes :
  (fold_left (add_backend request) backends (headers, schemes)).2
  = schemes ++ schemes_of backends.
Proof.
  revert headers schemes.
  induction backends as [|b backends IH]; intros headers schemes; simpl.
  - by rewrite app_nil_r.
  - rewrite IH. unfold schemes_of. simpl.
    destruct (www_auth_scheme b) as [s|]; simpl; [|done].
    destruct (negb (String.eqb s EmptyString)); simpl; [|done].
    by rewrite <- app_assoc.
Qed.

Lemma add_backends_absent backends headers schemes k :
  Forall (fun b => get_auth_headers b request !! k = None) backends →
  (fold_left (add_backend request) backends (headers, schemes)).1 !! k
  = headers !! k.
Proof.
  intros Hall. revert headers schemes.
  induction Hall as [|b backends Hb _ IH]; intros headers schemes; simpl;
    [done|].
  rewrite IH. by rewrite lookup_union_r.
Qed.

Lemma add_backends_last backends pre b post headers schemes k v :
  backends = pre ++ b :: post →
  get_auth_headers b request !! k = Some v →
  Forall (fun b' => get_auth_headers b' request !! k = None) post →
  (fold_left (add_backend request) backends (headers, schemes)).1 !! k
  = Some v.
Proof.
  intros -> Hb Hpost. rewrite fold_left_app. simpl.
  destruct (fold_left (add_backend request) pre (headers, schemes))
    as [headers' schemes'].
  simpl. rewrite add_backends_absent by done.
  by apply lookup_union_Some_l.
Qed.

Lemma get_auth_headers_unfold backends :
  _get_auth_headers backends request
  = match schemes_of backends with
    | [] => (fold_left (add_backend request) backends (∅, [])).1
    | _ => <[ "WWW-Authenticate" := join ", " (schemes_of backends) ]>
             (fold_left (add_backend request) backends (∅, [])).1
    end.
Proof.
  unfold _get_auth_headers.
  pose proof (add_backends_schemes backends ∅ []) as Hs. simpl in Hs.
  destruct (fold_left (add_backend request) backends (∅, []))
    as [headers schemes].
  simpl in *. by rewrite Hs.
Qed.

End AuthHeaderFacts.

(** X13: when at least one backend has a [www_auth_scheme], the headers
    hold under [WWW-Authenticate] the schemes of the backends that have
    one, in the order of the backends and joined with a comma and a
    space, whatever the backends themselves put under that name. *)
Theorem X13_www_authenticate_lists_schemes
    {Request : Type} (request : Request)
    (backends : list (auth_backend (Request := Request))) :
  schemes_of backends ≠ [] →
  _get_auth_headers backends request !! "WWW-Authenticate"
  = Some (join ", " (schemes_of backends)).
Proof.
  intros Hne. rewrite get_auth_headers_unfold.
  destruct (schemes_of backends); [done|]. apply lookup_insert_eq.
Qed.

Lemma X13_www_authenticate_lists_schemes_witness :
  _get_auth_headers
    [AuthBackend (Some "Basic") (fun _ => {[ "WWW-Authenticate" := "Other" ]});
     AuthBackend None (fun _ => ∅);
     AuthBackend (Some "") (fun _ => ∅);
     AuthBackend (Some "Token") (fun _ => {[ "X-Hint" := "use a token" ]})]
    tt
  !! "WWW-Authenticate"
  = Some "Basic, Token".
Proof.
  apply (X13_www_authenticate_lists_schemes tt
           [AuthBackend (Some "Basic")
              (fun _ => {[ "WWW-Authenticate" := "Other" ]});
            AuthBackend None (fun _ => ∅);
            AuthBackend (Some "") (fun _ => ∅);
            AuthBackend (Some "Token")
              (fun _ => {[ "X-Hint" := "use a token" ]})]).
  discriminate.
Defined.

(** X14: every other header comes from the backends, the last backend
    that gives a header winning: for a name [k] other than
    [WWW-Authenticate] (or any name, when no backend has a scheme), the
    result holds under [k] what the last backend with a header [k]
    returned, and nothing when no backend has one. *)
Theorem X14_last_backend_wins
    {Request : Type} (request : Request)
    (backends : list (auth_backend (Request := Request))) (k : string) :
  k ≠ "WWW-Authenticate" ∨ schemes_of backends = [] →
  (∀ pre b post v,
     backends = pre ++ b :: post →
     get_auth_headers b request !! k = Some v →
     Forall (fun b' => get_auth_headers b' request !! k = None) post →
     _get_auth_headers backends request !! k = Some v)
  ∧ (Forall (fun b => get_auth_headers b request !! k = None) backends →
     _get_auth_headers backends request !! k = None).
Proof.
  intros Hk.
  assert (_get_auth_headers backends request !! k
          = (fold_left (add_backend request) backends (∅, [])).1 !! k)
    as ->.
  { rewrite get_auth_headers_unfold.
    destruct (schemes_of backends) as [|s l]; [done|].
    destruct Hk as [Hk|?]; [|done]. by rewrite lookup_insert_ne. }
  split.
  - intros pre b post v. apply add_backends_last.
  - intros Hall. by rewrite add_backends_absent.
Qed.

Lemma X14_last_backend_wins_witness :
  _get_auth_headers
    [AuthBackend (Some "Basic") (fun _ => {[ "X-Hint" := "first" ]});
     AuthBackend None (fun _ => {[ "X-Hint" := "second" ]});
     AuthBackend (Some "Token") (fun _ => ∅)]
    tt
  !! "X-Hint"
  = Some "second".
Proof.
  destruct (X14_last_backend_wins tt
              [AuthBackend (Some "Basic") (fun _ => {[ "X-Hint" := "first" ]});
               AuthBackend None (fun _ => {[ "X-Hint" := "second" ]});
               AuthBackend (Some "Token") (fun _ => ∅)]
              "X-Hint") as [Hlast _].
  - left. discriminate.
  - apply (Hlast
             [AuthBackend (Some "Basic")
                (fun _ => {[ "X-Hint" := "first" ]})]
             (AuthBackend None (fun _ => {[ "X-Hint" := "second" ]}))
             [AuthBackend (Some "Token") (fun _ => ∅)] "second").
    + reflexivity.
    + reflexivity.
    + repeat constructor.
Defined.

(** * Extensions *)

Section StringFacts.

Lemma append_inj_r (s x y : string) : s +:+ x = s +:+ y → x = y.
Proof. induction s as [|c s IH]; simpl; [done|]. intros [= H]. auto. Qed.

Lemma append_sep_inj (sep : Ascii.ascii) (s1 s2 n1 n2 : string) :
  has_char sep s1 = false → has_char sep s2 = false →
  s1 +:+ String sep n1 = s2 +:+ String sep n2 →
  s1 = s2 ∧ n1 = n2.
Proof.
  revert s2. induction s1 as [|c1 s1 IH]; intros [|c2 s2]; simpl.
  - by intros _ _ [= ->].
  - intros _ [Hc _]%orb_false_iff [= <- _].
    by rewrite bool_decide_eq_true_2 in Hc.
  - intros [Hc _]%orb_false_iff _ [= -> _].
    by rewrite bool_decide_eq_true_2 in Hc.
  - intros [_ H1]%orb_false_iff [_ H2]%orb_false_iff [= -> Heq].
    destruct (IH s2 H1 H2 Heq) as [-> ->]. done.
Qed.

Lemma split_not_nil sep s : split sep s ≠ [].
Proof.
  destruct s as [|c s]; simpl; [done|].
  destruct (decide (c = sep)); [done|]. by destruct (split sep s).
Qed.

Lemma split_without_sep sep s :
  has_char sep s = false → split sep s = [s].
Proof.
  induction s as [|c s IH]; simpl; [done|].
  intros [Hc Hs]%orb_false_iff. apply bool_decide_eq_false in Hc.
  rewrite decide_False by done. by rewrite IH.
Qed.

Lemma split_app sep a b :
  split sep (a +:+ String sep b) = split sep a ++ split sep b.
Proof.
  induction a as [|c a IH]; simpl.
  - by rewrite decide_True.
  - destruct (decide (c = sep)); rewrite IH; [done|].
    pose proof (split_not_nil sep a). by destruct (split sep a).
Qed.

(** Joining the pieces of a split gives the string back. *)
Lemma join_split sep s : join (String sep EmptyString) (split sep s) = s.
Proof.
  induction s as [|c s IH]; simpl; [done|].
  pose proof (split_not_nil sep s) as Hne.
  destruct (decide (c = sep)) as [->|Hc].
  - destruct (split sep s) as [|piece pieces]; [done|].
    simpl in *. by rewrite IH.
  - destruct (split sep s) as [|piece pieces]; [done|].
    destruct pieces as [|piece' pieces]; simpl in *; by rewrite <- IH.
Qed.

End StringFacts.

(** X15: bundle IDs.  Within one extension, different bundle names give
    different IDs.  Across extensions whose IDs contain no hyphen, equal
    bundle IDs mean the same extension and the same name; with a hyphen
    in an extension ID two extensions can share a bundle ID. *)
Theorem X15_bundle_ids_unique :
  (∀ self_id name1 name2,
     Extension.get_bundle_id self_id name1
     = Extension.get_bundle_id self_id name2 →
     name1 = name2)
  ∧ (∀ id1 id2 name1 name2,
       has_char hyphen id1 = false → has_char hyphen id2 = false →
       Extension.get_bundle_id id1 name1 = Extension.get_bundle_id id2 name2 →
       id1 = id2 ∧ name1 = name2)
  ∧ Extension.get_bundle_id "my-ext" "default"
    = Extension.get_bundle_id "my" "ext-default".
Proof.
  unfold Extension.get_bundle_id. split; [|split; [|reflexivity]].
  - intros self_id name1 name2 Heq.
    apply append_inj_r in Heq. by injection Heq.
  - intros id1 id2 name1 name2. apply append_sep_inj.
Qed.

Lemma X15_bundle_ids_unique_witness :
  "my_ext.extension.MyExtension" = "my_ext.extension.MyExtension"
  ∧ "default" = "default".
Proof.
  destruct X15_bundle_ids_unique as (_ & Hacross & _).
  apply (Hacross "my_ext.extension.MyExtension"
           "my_ext.extension.MyExtension" "default" "default");
    reflexivity.
Defined.

Section ExtensionInfoFacts.

Variables (MEDIA_ROOT STATIC_ROOT : string).
Variable os_path_join : list string → string.

Abbreviation init := (ExtensionInfo.__init__ MEDIA_ROOT STATIC_ROOT os_path_join).

Lemma init_class shared_default c package_name metadata :
  ∃ i shared',
    init shared_default (ExtensionInfo.AClass c) package_name metadata
    = inr (i, shared')
    ∧ ExtensionInfo.metadata i
      = default ∅ (Extension.metadata c) ∪ default shared_default metadata
    ∧ shared' = match metadata with
                | Some _ => shared_default
                | None => ExtensionInfo.metadata i
                end
    ∧ ExtensionInfo.module_name i = Extension.__module__ c
    ∧ ExtensionInfo.app_name i
      = join "." (removelast (split dot (Extension.__module__ c)))
    ∧ ExtensionInfo.package_name i = package_name
    ∧ ExtensionInfo.name i
      = default package_name (ExtensionInfo.metadata i !! "Name")
    ∧ ExtensionInfo.url i = ExtensionInfo.metadata i !! "Home-page"
    ∧ ExtensionInfo.author_url i
      = match ExtensionInfo.metadata i !! "Author-home-page" with
        | Some v => Some v
        | None => ExtensionInfo.url i
        end.
Proof.
  unfold ExtensionInfo.__init__. eexists _, _. split; [reflexivity|].
  cbn. destruct (Extension.metadata c); simpl; rewrite ?(left_id_L ∅ (∪));
    by repeat split.
Qed.

End ExtensionInfoFacts.

Section ExtensionInfoProps.

Variables (MEDIA_ROOT STATIC_ROOT : string).
Variable os_path_join : list string → string.

Abbreviation new_info :=
  (ExtensionInfo.__init__ MEDIA_ROOT STATIC_ROOT os_path_join).

Abbreviation from_entrypoint :=
  (ExtensionInfo.create_from_entrypoint MEDIA_ROOT STATIC_ROOT os_path_join).

(** X16: [app_name] is the module of the extension class without its
    last component: for a module [pkg.last] it is [pkg], and for a module
    without a dot it is the empty string. *)
Theorem X16_app_name_drops_last_component
    (shared_default : gmap string string) (c : Extension.ext_class)
    (package_name : string) (metadata : option (gmap string string)) :
  ∃ i shared',
    new_info shared_default (ExtensionInfo.AClass c) package_name metadata
    = inr (i, shared')
    ∧ ExtensionInfo.module_name i = Extension.__module__ c
    ∧ (∀ pkg last,
         Extension.__module__ c = pkg +:+ "." +:+ last →
         has_char dot last = false →
         ExtensionInfo.app_name i = pkg)
    ∧ (has_char dot (Extension.__module__ c) = false →
       ExtensionInfo.app_name i = EmptyString).
Proof.
  destruct (init_class MEDIA_ROOT STATIC_ROOT os_path_join shared_default c
              package_name metadata)
    as (i & shared' & Hinit & _ & _ & Hmod & Happ & _).
  exists i, shared'. split; [done|]. split; [done|]. rewrite Happ. split.
  - intros pkg last -> Hlast.
    change (pkg +:+ "." +:+ last) with (pkg +:+ String dot last).
    rewrite split_app, (split_without_sep dot last Hlast).
    rewrite removelast_last. apply (join_split dot).
  - intros Hnone. by rewrite (split_without_sep dot _ Hnone).
Qed.

(** X17: metadata precedence.  For every key the metadata of the
    extension class wins over the metadata passed in.  The displayed
    name is the [Name] of the class metadata, else the [Name] passed in,
    else the package name; the author URL falls back to [Home-page]. *)
Theorem X17_class_metadata_takes_precedence
    (shared_default : gmap string string) (c : Extension.ext_class)
    (package_name : string) (given : gmap string string) :
  ∃ i shared',
    new_info shared_default (ExtensionInfo.AClass c) package_name
      (Some given)
    = inr (i, shared')
    ∧ shared' = shared_default
    ∧ (∀ k, ExtensionInfo.metadata i !! k
            = match default ∅ (Extension.metadata c) !! k with
              | Some v => Some v
              | None => given !! k
              end)
    ∧ ExtensionInfo.name i
      = match default ∅ (Extension.metadata c) !! "Name", given !! "Name" with
        | Some v, _ => v
        | None, Some v => v
        | None, None => package_name
        end
    ∧ (ExtensionInfo.metadata i !! "Author-home-page" = None →
       ExtensionInfo.author_url i = ExtensionInfo.metadata i !! "Home-page").
Proof.
  destruct (init_class MEDIA_ROOT STATIC_ROOT os_path_join shared_default c
              package_name (Some given))
    as (i & shared' & Hinit & Hmeta & Hshared & _ & _ & _ & Hname & Hurl
        & Hauthor).
  exists i, shared'. simpl in Hmeta.
  assert (∀ k, ExtensionInfo.metadata i !! k
               = match default ∅ (Extension.metadata c) !! k with
                 | Some v => Some v
                 | None => given !! k
                 end) as Hlookup.
  { intros k. rewrite Hmeta, lookup_union.
    destruct (default ∅ (Extension.metadata c) !! k) as [v|];
      by destruct (given !! k). }
  repeat split; [done..| |].
  - rewrite Hname, Hlookup.
    by destruct (default ∅ (Extension.metadata c) !! "Name"),
      (given !! "Name").
  - intros Hnone. by rewrite Hauthor, Hnone, Hurl.
Qed.

(** X18: the default of [metadata] is shared between calls.  When two
    [ExtensionInfo] objects are made in a row without [metadata], an
    entry of the first extension class's metadata is also in the
    metadata of the second object, unless the second class has its own
    entry for the key. *)
Theorem X18_default_metadata_is_shared
    (shared_default : gmap string string) (c1 c2 : Extension.ext_class)
    (package_name1 package_name2 : string)
    (own1 : gmap string string) (k v : string) :
  Extension.metadata c1 = Some own1 →
  own1 !! k = Some v →
  default ∅ (Extension.metadata c2) !! k = None →
  ∃ i1 shared1 i2 shared2,
    new_info shared_default (ExtensionInfo.AClass c1) package_name1 None
    = inr (i1, shared1)
    ∧ new_info shared1 (ExtensionInfo.AClass c2) package_name2 None
      = inr (i2, shared2)
    ∧ ExtensionInfo.metadata i2 !! k = Some v.
Proof.
  intros Hown1 Hk Hc2.
  destruct (init_class MEDIA_ROOT STATIC_ROOT os_path_join shared_default
              c1 package_name1 None)
    as (i1 & shared1 & Hinit1 & Hmeta1 & Hshared1 & _).
  destruct (init_class MEDIA_ROOT STATIC_ROOT os_path_join shared1
              c2 package_name2 None)
    as (i2 & shared2 & Hinit2 & Hmeta2 & _).
  exists i1, shared1, i2, shared2. split; [done|]. split; [done|].
  rewrite Hmeta2. simpl. rewrite lookup_union_r by done.
  rewrite Hshared1, Hmeta1, Hown1. simpl.
  by apply lookup_union_Some_l.
Qed.

(** X19: an [ExtensionInfo] made from an entry point takes its package
    name from the package metadata alone ([Name], else the ID of the
    extension class), while its displayed name prefers the [Name] of the
    class metadata; the shared default of [metadata] is left alone. *)
Theorem X19_create_from_entrypoint_names
    (shared_default entrypoint_metadata : gmap string string)
    (c : Extension.ext_class) :
  ∃ i,
    from_entrypoint shared_default entrypoint_metadata c
    = inr (i, shared_default)
    ∧ ExtensionInfo.package_name i
      = default (Extension.id c) (entrypoint_metadata !! "Name")
    ∧ ExtensionInfo.name i
      = match default ∅ (Extension.metadata c) !! "Name",
              entrypoint_metadata !! "Name" with
        | Some v, _ => v
        | None, Some v => v
        | None, None => Extension.id c
        end
    ∧ ExtensionInfo.installed_htdocs_path i
      = os_path_join [MEDIA_ROOT; "ext"; ExtensionInfo.package_name i]
    ∧ ExtensionInfo.installed_static_path i
      = os_path_join [STATIC_ROOT; "ext"; Extension.id c].
Proof.
  unfold ExtensionInfo.create_from_entrypoint, ExtensionInfo.__init__.
  eexists. split; [reflexivity|]. cbn.
  repeat split.
  destruct (Extension.metadata c) as [own|]; simpl.
  - rewrite lookup_union.
    by destruct (own !! "Name"), (entrypoint_metadata !! "Name").
  - rewrite lookup_empty.
    by destruct (entrypoint_metadata !! "Name").
Qed.

End ExtensionInfoProps.

Lemma X16_app_name_drops_last_component_witness :
  ∃ i shared',
    ExtensionInfo.__init__ "/srv/media" "/srv/static" (join "/") ∅
      (ExtensionInfo.AClass
         (Extension.ExtClass "my_ext.extension.MyExtension"
            "my_ext.extension" false false None))
      "my-ext" None
    = inr (i, shared')
    ∧ ExtensionInfo.app_name i = "my_ext".
Proof.
  destruct (X16_app_name_drops_last_component "/srv/media" "/srv/static"
              (join "/") ∅
              (Extension.ExtClass "my_ext.extension.MyExtension"
                 "my_ext.extension" false false None)
              "my-ext" None)
    as (i & shared' & Hinit & _ & Hpkg & _).
  exists i, shared'. split; [exact Hinit|].
  apply (Hpkg "my_ext" "extension"); reflexivity.
Defined.

Lemma X18_default_metadata_is_shared_witness :
  ∃ i1 shared1 i2 shared2,
    ExtensionInfo.__init__ "/srv/media" "/srv/static" (join "/") ∅
      (ExtensionInfo.AClass
         (Extension.ExtClass "first.extension.First" "first.extension"
            false false (Some {[ "Version" := "1.0" ]})))
      "first" None
    = inr (i1, shared1)
    ∧ ExtensionInfo.__init__ "/srv/media" "/srv/static" (join "/") shared1
        (ExtensionInfo.AClass
           (Extension.ExtClass "second.extension.Second" "second.extension"
              false false None))
        "second" None
      = inr (i2, shared2)
    ∧ ExtensionInfo.metadata i2 !! "Version" = Some "1.0".
Proof.
  apply (X18_default_metadata_is_shared "/srv/media" "/srv/static"
           (join "/") ∅
           (Extension.ExtClass "first.extension.First" "first.extension"
              false false (Some {[ "Version" := "1.0" ]}))
           (Extension.ExtClass "second.extension.Second" "second.extension"
              false false None)
           "first" "second" {[ "Version" := "1.0" ]} "Version" "1.0").
  - reflexivity.
  - reflexivity.
  - reflexivity.
Defined.

(** * Policies and the resource tree *)

Lemma validate_resource_policy_mono valid valid' item :
  valid ⊆ valid' →
  validate_resource_policy valid item = Return tt →
  validate_resource_policy valid' item = Return tt.
Proof.
  destruct item as [pid section]. intros Hsub.
  unfold validate_resource_policy.
  destruct (decide (pid ∈ valid)) as [Hin|Hnotin].
  - rewrite !bool_decide_eq_true_2; [done | by apply Hsub | done].
  - by rewrite (bool_decide_eq_false_2 (pid ∈ valid)).
Qed.

(** X20: a policy stays accepted when the resource tree grows: if it is
    accepted by a token class, it is accepted by every token class whose
    resource tree has at least the same valid policy IDs. *)
Theorem X20_acceptance_is_monotone_in_the_tree
    (cls cls' : token_class) (root root' : resource) (policy : pyval) :
  get_root_resource cls = Return root →
  get_root_resource cls' = Return root' →
  valid_ids root ⊆ valid_ids root' →
  validate_policy cls policy = Return tt →
  validate_policy cls' policy = Return tt.
Proof.
  intros Hroot Hroot' Hsub.
  destruct policy as [| | | | | |pol|]; try done.
  rewrite !validate_policy_Return.
  intros [?|(res & Hres & Hne & Hstar & Hrp)]; [by left|].
  right. exists res. repeat split; [done..|].
  destruct Hrp as [?|(r & Hr & Hloop)]; [by left|].
  right. exists root'. split; [done|].
  rewrite Hroot in Hr. injection Hr as <-.
  rewrite for_each_Return in Hloop |- *.
  eapply Forall_impl; [exact Hloop|]. intros item.
  by apply validate_resource_policy_mono.
Qed.

Lemma X20_acceptance_is_monotone_in_the_tree_witness :
  validate_policy ExampleToken
    (PyDict [(KStr "resources",
              PyDict [(KStr "user", PyDict [(KStr "*", allow_all)])])])
  = Return tt.
Proof.
  apply (X20_acceptance_is_monotone_in_the_tree
           (TokenClass (Return (Resource (Some (KStr "user")) [] [])))
           ExampleToken (Resource (Some (KStr "user")) [] []) example_root).
  - reflexivity.
  - reflexivity.
  - apply (bool_decide_unpack _). by vm_compute.
  - reflexivity.
Defined.

(** X21: the [ValidationError] of [_validate_policy_section] names the
    section by [full_section_name] and says what is wrong with it: the
    section is not a dict; it has neither rule; its [allow] rule is not a
    list (reported also when [block] is wrong as well); or, [allow] being
    in order, its [block] rule is not a list. *)
Theorem X21_section_error_messages
    (parent_section : pydict) (section_name : pykey)
    (full_section_name : string) (section : pyval) :
  dict_get section_name parent_section = Some section →
  (isinstance_dict section = false →
   _validate_policy_section parent_section section_name full_section_name
   = Raise (ValidationError
       ("The " +:+ dq +:+ full_section_name +:+ dq
        +:+ " section must be a JSON object.")))
  ∧ (∀ sec,
       section = PyDict sec →
       dict_get (KStr "allow") sec = None →
       dict_get (KStr "block") sec = None →
       _validate_policy_section parent_section section_name full_section_name
       = Raise (ValidationError
           ("The " +:+ dq +:+ full_section_name +:+ dq
            +:+ " section must have " +:+ dq +:+ "allow" +:+ dq
            +:+ " and/or " +:+ dq +:+ "block" +:+ dq +:+ " rules.")))
  ∧ (∀ sec rule,
       section = PyDict sec →
       dict_get (KStr "allow") sec = Some rule →
       isinstance_list rule = false →
       _validate_policy_section parent_section section_name full_section_name
       = Raise (ValidationError
           ("The " +:+ dq +:+ full_section_name +:+ dq +:+ " section's "
            +:+ dq +:+ "allow" +:+ dq +:+ " rule must be a list.")))
  ∧ (∀ sec rule,
       section = PyDict sec →
       rule_is_list "allow" sec = true →
       dict_get (KStr "block") sec = Some rule →
       isinstance_list rule = false →
       _validate_policy_section parent_section section_name full_section_name
       = Raise (ValidationError
           ("The " +:+ dq +:+ full_section_name +:+ dq +:+ " section's "
            +:+ dq +:+ "block" +:+ dq +:+ " rule must be a list."))).
Proof.
  intros Hget. unfold _validate_policy_section. rewrite Hget.
  split; [|split; [|split]].
  - by destruct section.
  - intros sec -> Hallow Hblock. unfold dict_contains.
    by rewrite Hallow, Hblock.
  - intros sec rule -> Hallow Hrule. unfold dict_contains.
    by rewrite Hallow, Hrule.
  - intros sec rule -> Hallow Hblock Hrule.
    unfold dict_contains, rule_is_list in *. rewrite Hblock, Hrule.
    destruct (dict_get (KStr "allow") sec) as [a|]; simpl;
      [by rewrite Hallow | done].
Qed.

Lemma X21_section_error_messages_witness :
  _validate_policy_section
    [(KStr "42",
      PyDict [(KStr "allow", PyStr "GET"); (KStr "block", PyStr "PUT")])]
    (KStr "42") "resources.repository.42"
  = Raise (ValidationError
      ("The " +:+ dq +:+ "resources.repository.42" +:+ dq +:+ " section's "
       +:+ dq +:+ "allow" +:+ dq +:+ " rule must be a list.")).
Proof.
  destruct (X21_section_error_messages
              [(KStr "42",
                PyDict [(KStr "allow", PyStr "GET");
                        (KStr "block", PyStr "PUT")])]
              (KStr "42") "resources.repository.42"
              (PyDict [(KStr "allow", PyStr "GET");
                       (KStr "block", PyStr "PUT")]) eq_refl)
    as (_ & _ & Hallow & _).
  apply (Hallow [(KStr "allow", PyStr "GET"); (KStr "block", PyStr "PUT")]
           (PyStr "GET")); reflexivity.
Defined.
